(** * yt-dlp GUI: the download worker, the cookie selection and the settings file

    A shallow embedding of [yt_dlp_gui.py].  Python statements that emit
    signals, spawn the child process, or assign attributes are written in a
    small state-and-exception monad; the external world (the child process,
    the directory picker, the file system, the toolkit's constructors) enters
    as explicit arguments or section variables. *)

From Stdlib Require Import ZArith Ascii String List.
From stdpp Require Import base option list strings gmap.

Set Warnings "-register-all".
Local Open Scope string_scope.
Local Open Scope list_scope.

(** ** Python strings

    A [str] is modelled as a Rocq [string] whose characters are the code
    points below 256. *)

Module Py.

(** [str.isspace] on one character: the code points below 256 that Python
    treats as whitespace (TAB..CR, FS..US, SPACE, NEL, NBSP). *)
Definition isspace (c : ascii) : bool :=
  let n := nat_of_ascii c in
  (Nat.leb 9 n && Nat.leb n 13) || (Nat.leb 28 n && Nat.leb n 32)
  || Nat.eqb n 133 || Nat.eqb n 160.

(** [s.lstrip()]. *)
Fixpoint lstrip (s : string) : string :=
  match s with
  | EmptyString => EmptyString
  | String c s' => if isspace c then lstrip s' else s
  end.

(** [s.rstrip()]. *)
Fixpoint rstrip (s : string) : string :=
  match s with
  | EmptyString => EmptyString
  | String c s' =>
      match rstrip s' with
      | EmptyString => if isspace c then EmptyString else String c EmptyString
      | r => String c r
      end
  end.

(** [s.strip()]: whitespace removed at both ends. *)
Definition strip (s : string) : string := rstrip (lstrip s).

(** Truthiness of a [str]: [bool(s)], false exactly for the empty string. *)
Definition truthy (s : string) : bool :=
  match s with EmptyString => false | String _ _ => true end.

(** Truthiness of an argument that is either [None] or a [str]. *)
Definition truthy_opt (o : option string) : bool :=
  match o with None => false | Some s => truthy s end.

(** A string made of whitespace only. *)
Fixpoint all_space (s : string) : bool :=
  match s with
  | EmptyString => true
  | String c s' => isspace c && all_space s'
  end.

Definition first_char (s : string) : option ascii :=
  match s with EmptyString => None | String c _ => Some c end.

Fixpoint last_char (s : string) : option ascii :=
  match s with
  | EmptyString => None
  | String c EmptyString => Some c
  | String _ s' => last_char s'
  end.

(** The newline character of an f-string's [\n]. *)
Definition nl : string := String (ascii_of_nat 10) EmptyString.

(** Values of the [json] module: what [json.load] returns and [json.dump]
    accepts.  A float is kept as mantissa and binary exponent; no operation
    of the program inspects it. *)
Inductive value : Type :=
  | VNone
  | VBool (b : bool)
  | VInt (n : Z)
  | VFloat (m e : Z)
  | VStr (s : string)
  | VList (xs : list value)
  | VDict (d : gmap string value).

(** An exception, kept as its message [str(e)]. *)
Definition exn : Type := string.

(** The result of running a statement: it completes with a value or raises. *)
Inductive outcome (A : Type) : Type :=
  | Return (a : A)
  | Raise (e : exn).
Arguments Return {A} a.
Arguments Raise {A} e.

(** Statements over a mutable state [S].  What was assigned or emitted
    before an exception is raised stays in the state. *)
Definition M (S A : Type) : Type := S -> outcome A * S.

Definition ret {S A} (a : A) : M S A := fun s => (Return a, s).

Definition bind {S A B} (m : M S A) (f : A -> M S B) : M S B :=
  fun s =>
    match m s with
    | (Return a, s') => f a s'
    | (Raise e, s') => (Raise e, s')
    end.

Definition raise {S A} (e : exn) : M S A := fun s => (Raise e, s).

(** [try: body except Exception as e: handler(e)]. *)
Definition try_except {S A} (body : M S A) (handler : exn -> M S A) : M S A :=
  fun s =>
    match body s with
    | (Return a, s') => (Return a, s')
    | (Raise e, s') => handler e s'
    end.

Definition get {S} : M S S := fun s => (Return s, s).
Definition modify {S} (f : S -> S) : M S unit := fun s => (Return tt, f s).

(** [for x in xs: body(x)]. *)
Fixpoint for_each {S A} (xs : list A) (body : A -> M S unit) : M S unit :=
  match xs with
  | [] => ret tt
  | x :: xs' => bind (body x) (fun _ => for_each xs' body)
  end.

End Py.

Import Py.

Declare Scope py_scope.
Delimit Scope py_scope with py.
Notation "x <- m ;; k" := (Py.bind m (fun x => k))
  (at level 100, m at next level, right associativity) : py_scope.
Notation "m ;; k" := (Py.bind m (fun _ => k))
  (at level 100, right associativity) : py_scope.


(** ** The download worker *)

Module DownloadWorker.

(** The two signals of the worker. *)
Inductive signal : Type :=
  | output (text : string)
  | finished.

(** What the worker does to the outside, in order: it emits a signal, it
    spawns the child process with an argument vector, it waits for it. *)
Inductive action : Type :=
  | Emit (sg : signal)
  | Spawn (cmd : list string)
  | Wait.

(** How the child process behaves once asked for: the spawn raises, or the
    process starts and its combined output yields lines until end-of-stream
    or until a read raises. *)
Inductive child : Type :=
  | SpawnRaises (e : exn)
  | Spawned (lines : list string) (read_error : option exn).

(** The process object [subprocess.Popen] returns. *)
Record process : Type := Process {
  stdout : list string;
  stdout_error : option exn
}.

(** The worker's attributes, as [__init__] stores them. *)
Record t : Type := Build {
  url : string;
  video_dir : string;
  audio_dir : string;
  audio_only : bool;
  cookies_browser : option string;
  cookies_file : option string
}.

(** The text a truthy [None]-or-[str] attribute holds. *)
Definition text_of (o : option string) : string := default "" o.

Definition emit (sg : signal) : M (list action) unit :=
  modify (fun tr => tr ++ [Emit sg]).

Section Run.

(** The operating system: what spawning a given argument vector leads to. *)
Variable subprocess : list string -> child.

Definition Popen (cmd : list string) : M (list action) process :=
  (modify (fun tr => tr ++ [Spawn cmd]) ;;
   match subprocess cmd with
   | SpawnRaises e => raise e
   | Spawned lines err => ret (Process lines err)
   end)%py.

(** [for line in process.stdout: body(line)]: the lines in order, then the
    end of the stream or the exception of a failed read. *)
Definition for_line_in (p : process) (body : string -> M (list action) unit)
  : M (list action) unit :=
  (for_each (stdout p) body ;;
   match stdout_error p with
   | Some e => raise e
   | None => ret tt
   end)%py.

Definition wait (p : process) : M (list action) unit :=
  modify (fun tr => tr ++ [Wait]).

Definition run (self : t) : M (list action) unit :=
  (cmd <-
     (if audio_only self then
        let download_dir := audio_dir self in
        let cmd := ["yt-dlp"; "-x"; "--audio-format"; "mp3";
                    "-P"; download_dir] in
        emit (output ("Starting audio download: " +:+ url self +:+ nl
                      +:+ "Download directory: " +:+ download_dir)) ;;
        ret cmd
      else
        let download_dir := video_dir self in
        let cmd := ["yt-dlp"; "-P"; download_dir] in
        emit (output ("Starting video download: " +:+ url self +:+ nl
                      +:+ "Download directory: " +:+ download_dir)) ;;
        ret cmd) ;;
   cmd <-
     (if truthy_opt (cookies_file self) then
        let cmd := cmd ++ ["--cookies"; text_of (cookies_file self)] in
        emit (output ("Using cookies file: " +:+ text_of (cookies_file self))) ;;
        ret cmd
      else if truthy_opt (cookies_browser self) then
        let cmd := cmd ++ ["--cookies-from-browser";
                           text_of (cookies_browser self)] in
        emit (output ("Using cookies from browser: "
                      +:+ text_of (cookies_browser self))) ;;
        ret cmd
      else ret cmd) ;;
   let cmd := cmd ++ [url self] in
   try_except
     (process <- Popen cmd ;;
      for_line_in process (fun line => emit (output (strip line))) ;;
      wait process ;;
      emit (output "Download finished."))
     (fun e => emit (output ("Error: " +:+ e))) ;;
   emit finished)%py.

(** The trace of one run, started with nothing emitted yet. *)
Definition trace (self : t) : list action := snd (run self []).

End Run.

(** The signals of a trace, in order. *)
Definition signals (tr : list action) : list signal :=
  omap (fun a => match a with Emit sg => Some sg | _ => None end) tr.

(** The argument vectors a trace spawned, in order. *)
Definition spawned (tr : list action) : list (list string) :=
  omap (fun a => match a with Spawn cmd => Some cmd | _ => None end) tr.

Definition is_finished (sg : signal) : bool :=
  match sg with finished => true | output _ => false end.

(** How many [finished] signals a sequence holds. *)
Definition count_finished (sgs : list signal) : nat :=
  length (List.filter is_finished sgs).

#[global] Instance signal_eq_dec : EqDecision signal.
Proof. solve_decision. Defined.

(** How many signals of a sequence are the given one. *)
Definition count_signal (sg : signal) (sgs : list signal) : nat :=
  length (List.filter (fun x => bool_decide (x = sg)) sgs).

End DownloadWorker.


(** ** The window: cookie selection and the start of a download *)

Module YtDlpGui.

(** The items of the browser combo box. *)
Inductive browser : Type := brave | chrome | edge | firefox | vivaldi.

(** [cookies_browser_combo.currentText()]. *)
Definition currentText (b : browser) : string :=
  match b with
  | brave => "brave"
  | chrome => "chrome"
  | edge => "edge"
  | firefox => "firefox"
  | vivaldi => "vivaldi"
  end.

(** The window once constructed: its directory attributes (strings by then,
    the labels were built from them), what the input widgets hold, the log
    view, the buttons' enabled state, the worker placeholder, and the
    workers whose threads were started, oldest first. *)
Record t : Type := Build {
  video_dir : string;
  audio_dir : string;
  last_save_dir : string;
  cookies_file_path : string;
  url_input : string;
  audio_only_checkbox : bool;
  override_save_location_checkbox : bool;
  use_cookies_checkbox : bool;
  cookies_browser_combo : browser;
  cookies_profile_input : string;
  use_cookies_file_checkbox : bool;
  status_display : list string;
  download_btn : bool;
  open_last_save_btn : bool;
  worker : option DownloadWorker.t;
  started : list DownloadWorker.t
}.

Definition set_status_display (v : list string) (self : t) : t :=
  Build (video_dir self) (audio_dir self) (last_save_dir self)
    (cookies_file_path self) (url_input self) (audio_only_checkbox self)
    (override_save_location_checkbox self) (use_cookies_checkbox self)
    (cookies_browser_combo self) (cookies_profile_input self)
    (use_cookies_file_checkbox self) v (download_btn self)
    (open_last_save_btn self) (worker self) (started self).

Definition set_last_save_dir (v : string) (self : t) : t :=
  Build (video_dir self) (audio_dir self) v
    (cookies_file_path self) (url_input self) (audio_only_checkbox self)
    (override_save_location_checkbox self) (use_cookies_checkbox self)
    (cookies_browser_combo self) (cookies_profile_input self)
    (use_cookies_file_checkbox self) (status_display self) (download_btn self)
    (open_last_save_btn self) (worker self) (started self).

Definition set_download_btn (v : bool) (self : t) : t :=
  Build (video_dir self) (audio_dir self) (last_save_dir self)
    (cookies_file_path self) (url_input self) (audio_only_checkbox self)
    (override_save_location_checkbox self) (use_cookies_checkbox self)
    (cookies_browser_combo self) (cookies_profile_input self)
    (use_cookies_file_checkbox self) (status_display self) v
    (open_last_save_btn self) (worker self) (started self).

Definition set_open_last_save_btn (v : bool) (self : t) : t :=
  Build (video_dir self) (audio_dir self) (last_save_dir self)
    (cookies_file_path self) (url_input self) (audio_only_checkbox self)
    (override_save_location_checkbox self) (use_cookies_checkbox self)
    (cookies_browser_combo self) (cookies_profile_input self)
    (use_cookies_file_checkbox self) (status_display self) (download_btn self)
    v (worker self) (started self).

Definition set_worker (v : option DownloadWorker.t) (self : t) : t :=
  Build (video_dir self) (audio_dir self) (last_save_dir self)
    (cookies_file_path self) (url_input self) (audio_only_checkbox self)
    (override_save_location_checkbox self) (use_cookies_checkbox self)
    (cookies_browser_combo self) (cookies_profile_input self)
    (use_cookies_file_checkbox self) (status_display self) (download_btn self)
    (open_last_save_btn self) v (started self).

(** [thread.start()]: the worker's [run] is now scheduled on its thread. *)
Definition thread_start (w : DownloadWorker.t) (self : t) : t :=
  Build (video_dir self) (audio_dir self) (last_save_dir self)
    (cookies_file_path self) (url_input self) (audio_only_checkbox self)
    (override_save_location_checkbox self) (use_cookies_checkbox self)
    (cookies_browser_combo self) (cookies_profile_input self)
    (use_cookies_file_checkbox self) (status_display self) (download_btn self)
    (open_last_save_btn self) (worker self) (started self ++ [w]).

(** [self.status_display.append(text)]. *)
Definition status_display_append (text : string) : M t unit :=
  modify (fun self => set_status_display (status_display self ++ [text]) self).

(** The pair [(cookies_browser, cookies_file)] handed to the worker. *)
Definition _get_cookies_selection (self : t) : option string * option string :=
  let use_cookies := use_cookies_checkbox self in
  let use_cookies_file := use_cookies_file_checkbox self in
  if use_cookies_file && truthy (cookies_file_path self) then
    (None, Some (cookies_file_path self))
  else if use_cookies then
    let browser := currentText (cookies_browser_combo self) in
    let profile := strip (cookies_profile_input self) in
    let cookies_browser :=
      if truthy profile then browser +:+ ":" +:+ profile else browser in
    (Some cookies_browser, None)
  else (None, None).

Section Session.

(** The directory picker: caption and start directory to the chosen path,
    the empty string when the user cancels. *)
Variable getExistingDirectory : string -> string -> string.

(** [os.path.isdir]. *)
Variable isdir : string -> bool.

(** The directories of this download.  The source returns the pair
    [(None, None)] when the picker is cancelled and a pair of strings
    otherwise; the cancelled pair is [None] here. *)
Definition _resolve_download_dirs (audio_only : bool)
    (video_dir audio_dir : string) (override_save : bool)
  : option (string * string) :=
  if negb override_save then Some (video_dir, audio_dir)
  else if audio_only then
    let dir_path :=
      getExistingDirectory "Select Download Directory for Audio" audio_dir in
    if negb (truthy dir_path) then None
    else Some (video_dir, dir_path)
  else
    let dir_path :=
      getExistingDirectory "Select Download Directory for Video" video_dir in
    if negb (truthy dir_path) then None
    else Some (dir_path, audio_dir).

Definition _update_last_save_button_state : M t unit :=
  (self <- get ;;
   let enabled :=
     truthy (strip (last_save_dir self)) && isdir (last_save_dir self) in
   modify (set_open_last_save_btn enabled))%py.

Definition _start_worker (url video_dir audio_dir : string) (audio_only : bool)
    (cookies_browser cookies_file : option string) : M t unit :=
  (modify (set_download_btn false) ;;
   status_display_append "" ;;
   let w := DownloadWorker.Build url video_dir audio_dir audio_only
              cookies_browser cookies_file in
   modify (set_worker (Some w)) ;;
   modify (thread_start w))%py.

Definition start_download : M t unit :=
  (self <- get ;;
   let url := strip (url_input self) in
   if negb (truthy url) then
     status_display_append "Please enter a URL."
   else
     let audio_only := audio_only_checkbox self in
     let override_save := override_save_location_checkbox self in
     match _resolve_download_dirs audio_only (video_dir self)
             (audio_dir self) override_save with
     | None => status_display_append "Download cancelled."
     | Some (video_dir, audio_dir) =>
         modify (set_last_save_dir
                   (if audio_only then audio_dir else video_dir)) ;;
         _update_last_save_button_state ;;
         self <- get ;;
         let '(cookies_browser, cookies_file) :=
           _get_cookies_selection self in
         _start_worker url video_dir audio_dir audio_only
           cookies_browser cookies_file
     end)%py.


End Session.

(** The worker [start_download] constructs for a URL and resolved
    directories: the cookie arguments are the current selection. *)
Definition new_worker (self : t) (url video_dir audio_dir : string)
    (audio_only : bool) : DownloadWorker.t :=
  DownloadWorker.Build url video_dir audio_dir audio_only
    (fst (_get_cookies_selection self)) (snd (_get_cookies_selection self)).

End YtDlpGui.

(** ** The settings file *)

Module Settings.

(** The file [app_config.json] as the program meets it: missing, present but
    not openable, present but rejected by [json.load], or holding a JSON
    document.  [json.dump] followed by [json.load] gives the value back,
    which is the [json] module's contract for values of type [value]. *)
Definition CONFIG_FILE : string := "app_config.json".

Inductive config_file : Type :=
  | Absent
  | Unreadable (e : exn)
  | Malformed (e : exn)
  | Document (v : value).

(** [os.path.exists(CONFIG_FILE)]. *)
Definition path_exists (file : config_file) : bool :=
  match file with Absent => false | _ => true end.

(** The settings attributes of the window.  When loaded they hold whatever
    JSON value the file gave.  [window_size] is [None] as long as the
    attribute was never assigned ([hasattr] is false); an attribute assigned
    Python's [None] is [Some VNone]. *)
Record t : Type := Build {
  video_dir : value;
  audio_dir : value;
  last_save_dir : value;
  window_size : option value
}.

Definition set_video_dir (v : value) (self : t) : t :=
  Build v (audio_dir self) (last_save_dir self) (window_size self).
Definition set_audio_dir (v : value) (self : t) : t :=
  Build (video_dir self) v (last_save_dir self) (window_size self).
Definition set_last_save_dir (v : value) (self : t) : t :=
  Build (video_dir self) (audio_dir self) v (window_size self).
Definition set_window_size (v : value) (self : t) : t :=
  Build (video_dir self) (audio_dir self) (last_save_dir self) (Some v).

(** [type(v).__name__]. *)
Definition type_name (v : value) : string :=
  match v with
  | VNone => "NoneType"
  | VBool _ => "bool"
  | VInt _ => "int"
  | VFloat _ _ => "float"
  | VStr _ => "str"
  | VList _ => "list"
  | VDict _ => "dict"
  end.

(** Whether [*v] can unpack [v]. *)
Definition iterable (v : value) : bool :=
  match v with
  | VStr _ | VList _ | VDict _ => true
  | VNone | VBool _ | VInt _ | VFloat _ _ => false
  end.

(** [with open(CONFIG_FILE, "r") as f: config = json.load(f)]. *)
Definition open_json_load {S} (file : config_file) : M S value :=
  match file with
  | Absent =>
      raise ("[Errno 2] No such file or directory: '" +:+ CONFIG_FILE +:+ "'")
  | Unreadable e => raise e
  | Malformed e => raise e
  | Document v => ret v
  end.

(** [config.get(key, dflt)]: a lookup with default on a dict, an
    [AttributeError] on the JSON values that have no [get]. *)
Definition config_get {S} (config : value) (key : string) (dflt : value)
  : M S value :=
  match config with
  | VDict d => ret (default dflt (d !! key))
  | _ => raise ("'" +:+ type_name config
               +:+ "' object has no attribute 'get'")
  end.

Definition load_config (file : config_file) : M t unit :=
  (if path_exists file then
     try_except
       (config <- open_json_load file ;;
        self <- get ;;
        v <- config_get config "video_dir" (video_dir self) ;;
        modify (set_video_dir v) ;;
        self <- get ;;
        v <- config_get config "audio_dir" (audio_dir self) ;;
        modify (set_audio_dir v) ;;
        self <- get ;;
        v <- config_get config "last_save_dir" (last_save_dir self) ;;
        modify (set_last_save_dir v) ;;
        v <- config_get config "window_size" VNone ;;
        modify (set_window_size v))
       (fun _ => ret tt)
   else ret tt)%py.

(** How the write at shutdown goes: it succeeds, opening the file raises
    (the old file stays), or dumping raises after the file was truncated and
    leaves [remains] behind. *)
Inductive write_outcome : Type :=
  | Written
  | OpenRaises (e : exn)
  | DumpRaises (e : exn) (remains : config_file).

(** [save_config], over the file as state.  [width] and [height] are what
    [self.width()] and [self.height()] return. *)
Definition save_config (self : t) (width height : Z) (io : write_outcome)
  : M config_file unit :=
  (let config : gmap string value :=
     {[ "video_dir" := video_dir self;
        "audio_dir" := audio_dir self;
        "last_save_dir" := last_save_dir self;
        "window_size" := VList [VInt width; VInt height] ]} in
   try_except
     (match io with
      | OpenRaises e => raise e
      | DumpRaises e remains => modify (fun _ => remains) ;; raise e
      | Written => modify (fun _ => Document (VDict config))
      end)
     (fun _ => ret tt))%py.

Section Startup.

(** [os.path.expanduser("~")]. *)
Variable home : string.

(** The toolkit's [QSize] applied to the items of an iterable value: the
    size it builds, or the exception it raises on items it rejects. *)
Variable QSize_of_items : value -> outcome (Z * Z).

(** [QSize( *v )]: Python unpacks [v] first and raises [TypeError] itself
    when [v] is not iterable; only then is the constructor called. *)
Definition QSize_star (v : value) : M t (Z * Z) :=
  if iterable v then
    match QSize_of_items v with
    | Return sz => ret sz
    | Raise e => raise e
    end
  else
    raise ("PySide6.QtCore.QSize() argument after * must be an iterable, "
           +:+ "not " +:+ type_name v).

(** The attributes [__init__] assigns before it calls [load_config]. *)
Definition defaults : t := Build (VStr home) (VStr home) (VStr "") None.

(** The settings side of the constructor: the defaults, [load_config], and
    after the widgets are built (not modelled) the restore of the window
    size under its [hasattr] guard.  The result is the size the window was
    resized to, if it was. *)
Definition __init__ (file : config_file) : M t (option (Z * Z)) :=
  (modify (fun _ => defaults) ;;
   load_config file ;;
   self <- get ;;
   match window_size self with
   | Some ws => sz <- QSize_star ws ;; ret (Some sz)
   | None => ret None
   end)%py.

End Startup.

End Settings.

(** ** Closed forms

    The argument vector and the browser argument as the specification words
    them, and the worker's own log lines, the signals of a run and the saved
    dict as plain lists and maps; the facts below show that [run],
    [_get_cookies_selection] and [save_config] produce exactly these. *)

Module Expected.
Import DownloadWorker.

(** The argument vector in the words of the interface description:
    the tool, the mode flags with the target directory, the cookie flags,
    the URL last. *)
Definition mode_flags (audio_only : bool) (video_dir audio_dir : string)
  : list string :=
  if audio_only
  then ["yt-dlp"; "-x"; "--audio-format"; "mp3"; "-P"; audio_dir]
  else ["yt-dlp"; "-P"; video_dir].

Definition spec_mode_flags (self : DownloadWorker.t) : list string :=
  mode_flags (audio_only self) (video_dir self) (audio_dir self).

Definition spec_cookie_flags (self : DownloadWorker.t) : list string :=
  if truthy_opt (cookies_file self)
  then ["--cookies"; text_of (cookies_file self)]
  else if truthy_opt (cookies_browser self)
  then ["--cookies-from-browser"; text_of (cookies_browser self)]
  else [].

Definition spec_argv (self : DownloadWorker.t) : list string :=
  spec_mode_flags self ++ spec_cookie_flags self ++ [url self].

(** The lines the worker writes itself before it spawns the child. *)
Definition start_banner (self : DownloadWorker.t) : string :=
  if audio_only self
  then "Starting audio download: " +:+ url self +:+ nl
       +:+ "Download directory: " +:+ audio_dir self
  else "Starting video download: " +:+ url self +:+ nl
       +:+ "Download directory: " +:+ video_dir self.

Definition cookie_banner (self : DownloadWorker.t) : list string :=
  if truthy_opt (cookies_file self)
  then ["Using cookies file: " +:+ text_of (cookies_file self)]
  else if truthy_opt (cookies_browser self)
  then ["Using cookies from browser: " +:+ text_of (cookies_browser self)]
  else [].

Definition banners (self : DownloadWorker.t) : list string :=
  start_banner self :: cookie_banner self.

(** The signals that follow the spawn attempt, by the child's behaviour. *)
Definition after_spawn (c : child) : list action :=
  match c with
  | SpawnRaises e => [Emit (output ("Error: " +:+ e)); Emit finished]
  | Spawned lines None =>
      map (fun l => Emit (output (strip l))) lines
      ++ [Wait; Emit (output "Download finished."); Emit finished]
  | Spawned lines (Some e) =>
      map (fun l => Emit (output (strip l))) lines
      ++ [Emit (output ("Error: " +:+ e)); Emit finished]
  end.

(** The signals that follow the spawn attempt. *)
Definition signals_after_spawn (c : child) : list signal :=
  match c with
  | SpawnRaises e => [output ("Error: " +:+ e); finished]
  | Spawned lines None =>
      map (fun l => output (strip l)) lines
      ++ [output "Download finished."; finished]
  | Spawned lines (Some e) =>
      map (fun l => output (strip l)) lines
      ++ [output ("Error: " +:+ e); finished]
  end.

(** The browser argument in the specification's words: the browser name,
    followed by a colon and the profile when a profile was supplied. *)
Definition spec_browser_arg (self : YtDlpGui.t) : string :=
  if truthy (strip (YtDlpGui.cookies_profile_input self))
  then YtDlpGui.currentText (YtDlpGui.cookies_browser_combo self) +:+ ":"
       +:+ strip (YtDlpGui.cookies_profile_input self)
  else YtDlpGui.currentText (YtDlpGui.cookies_browser_combo self).

(** A cookie file is selected: the option is ticked and a path was chosen. *)
Definition file_selected (self : YtDlpGui.t) : bool :=
  YtDlpGui.use_cookies_file_checkbox self
  && truthy (YtDlpGui.cookies_file_path self).

(** The dict [save_config] dumps. *)
Definition saved_config (self : Settings.t) (width height : Z)
  : gmap string value :=
  {[ "video_dir" := Settings.video_dir self;
     "audio_dir" := Settings.audio_dir self;
     "last_save_dir" := Settings.last_save_dir self;
     "window_size" := VList [VInt width; VInt height] ]}.

End Expected.

(** ** Sample inputs *)

Module Samples.

(** The request of the end-to-end scenario: a video download of
    [http://x/y] into [/tmp/v] without cookies. *)
Definition scenario : DownloadWorker.t :=
  DownloadWorker.Build "http://x/y" "/tmp/v" "/tmp/a" false None None.

(** A window with both cookie options ticked and a cookie file chosen. *)
Definition both_selected : YtDlpGui.t :=
  YtDlpGui.Build "/home/u" "/home/u" "" "/home/u/cookies.txt"
    " http://x/y " false false true YtDlpGui.firefox "Default" true []
    true false None [].

(** A window with only the browser option ticked. *)
Definition browser_selected (profile : string) : YtDlpGui.t :=
  YtDlpGui.Build "/home/u" "/home/u" "" "" "http://x/y" false false
    true YtDlpGui.firefox profile false [] true false None [].

(** A window with no cookie option ticked. *)
Definition nothing_selected : YtDlpGui.t :=
  YtDlpGui.Build "/home/u" "/home/u" "" "" "http://x/y" false false
    false YtDlpGui.brave "" false [] true false None [].

(** A window with the file option ticked, no file chosen, and the browser
    option ticked or not. *)
Definition file_ticked_no_path (use_browser : bool) : YtDlpGui.t :=
  YtDlpGui.Build "/home/u" "/home/u" "" "" "http://x/y" false false
    use_browser YtDlpGui.chrome " Profile 1 " true [] true false None [].

(** A window with a blank URL field, and one with a URL and the override
    option ticked. *)
Definition blank_url : YtDlpGui.t :=
  YtDlpGui.Build "/home/u" "/home/u" "" "" "   " false true
    false YtDlpGui.brave "" false ["ready"] true false None [].

Definition override_ticked : YtDlpGui.t :=
  YtDlpGui.Build "/home/u" "/home/u" "" "" "http://x/y" true true
    false YtDlpGui.brave "" false ["ready"] true false None [].

(** Settings as a session leaves them: two directories, the last target,
    and an 800 by 600 window. *)
Definition sample_settings : Settings.t :=
  Settings.Build (VStr "/home/u/Videos") (VStr "/home/u/Music")
    (VStr "/tmp/v") (Some (VList [VInt 800; VInt 600])).

End Samples.

(** ** The window's other slots *)

Module Window.
Import YtDlpGui.

Definition set_video_dir (v : string) (self : YtDlpGui.t) : YtDlpGui.t :=
  Build v (audio_dir self) (last_save_dir self)
    (cookies_file_path self) (url_input self) (audio_only_checkbox self)
    (override_save_location_checkbox self) (use_cookies_checkbox self)
    (cookies_browser_combo self) (cookies_profile_input self)
    (use_cookies_file_checkbox self) (status_display self) (download_btn self)
    (open_last_save_btn self) (worker self) (started self).

Definition set_audio_dir (v : string) (self : YtDlpGui.t) : YtDlpGui.t :=
  Build (video_dir self) v (last_save_dir self)
    (cookies_file_path self) (url_input self) (audio_only_checkbox self)
    (override_save_location_checkbox self) (use_cookies_checkbox self)
    (cookies_browser_combo self) (cookies_profile_input self)
    (use_cookies_file_checkbox self) (status_display self) (download_btn self)
    (open_last_save_btn self) (worker self) (started self).

Definition set_cookies_file_path (v : string) (self : YtDlpGui.t)
  : YtDlpGui.t :=
  Build (video_dir self) (audio_dir self) (last_save_dir self)
    v (url_input self) (audio_only_checkbox self)
    (override_save_location_checkbox self) (use_cookies_checkbox self)
    (cookies_browser_combo self) (cookies_profile_input self)
    (use_cookies_file_checkbox self) (status_display self) (download_btn self)
    (open_last_save_btn self) (worker self) (started self).


Section Pickers.

(** The directory picker, as in [YtDlpGui]: caption and start directory to
    the chosen path, empty on cancel. *)
Variable getExistingDirectory : string -> string -> string.

(** The file picker: caption and start directory to the chosen file (the
    first component of what [getOpenFileName] returns), empty on cancel.
    The name filter it is also given does not enter the model. *)
Variable getOpenFileName : string -> string -> string.

(** [os.getcwd()]. *)
Variable getcwd : string.

(** [QApplication.clipboard().text()]. *)
Variable clipboard_text : string.

Definition choose_cookies_file : M YtDlpGui.t unit :=
  (let file_path := getOpenFileName "Select cookies.txt file" getcwd in
   if truthy file_path then modify (set_cookies_file_path file_path)
   else ret tt)%py.




End Pickers.

(** What [_open_directory_in_file_manager] does on screen: a warning box
    with its title and text, or a request to open a local folder. *)
Inductive ui : Type :=
  | Warning (title text : string)
  | OpenUrl (path : string).

Definition OPEN_FOLDER_DIALOG_TITLE : string := "Open folder".

Section FileManager.

(** [os.path.isdir]. *)
Variable isdir : string -> bool.

(** [QDesktopServices.openUrl(QUrl.fromLocalFile(path))]: whether the
    platform opened the folder. *)
Variable openUrl : string -> bool.

(** The argument is one of the window's directory attributes, a [str]; for
    a [str] the source's [dir_path or ""] is [dir_path]. *)
Definition _open_directory_in_file_manager (dir_path : string)
  : M (list ui) unit :=
  (let dir_path := strip dir_path in
   if negb (truthy dir_path) then
     modify (fun tr =>
               tr ++ [Warning OPEN_FOLDER_DIALOG_TITLE "No folder is set."])
   else if negb (isdir dir_path) then
     modify (fun tr =>
               tr ++ [Warning OPEN_FOLDER_DIALOG_TITLE
                        ("Folder does not exist:" +:+ nl +:+ dir_path)])
   else
     (modify (fun tr => tr ++ [OpenUrl dir_path]) ;;
      let ok := openUrl dir_path in
      if negb ok then
        modify (fun tr =>
                  tr ++ [Warning OPEN_FOLDER_DIALOG_TITLE
                           ("Could not open folder:" +:+ nl +:+ dir_path)])
      else ret tt))%py.

(** What a call shows, started with nothing on screen. *)
Definition shown (dir_path : string) : list ui :=
  snd (_open_directory_in_file_manager dir_path []).

End FileManager.





End Window.

(** ** The README dialog *)

Module ReadmeDialog.

(** A candidate path on disk: nothing there, something that cannot be read,
    or a text file with its content. *)
Inductive file : Type :=
  | Missing
  | Unreadable (e : exn)
  | Text (content : string).

(** [os.path.exists(p)]. *)
Definition path_exists (f : file) : bool :=
  match f with Missing => false | _ => true end.

(** [with open(p, "r", encoding="utf-8") as f: f.read()]. *)
Definition read (f : file) : outcome string :=
  match f with
  | Missing => Raise "[Errno 2] No such file or directory"
  | Unreadable e => Raise e
  | Text content => Return content
  end.

(** What the text view ends up holding. *)
Inductive rendered : Type :=
  | Markdown (content : string)
  | PlainText (content : string).

Section Load.

(** The file system, by path. *)
Variable disk : string -> file.

(** [os.path.join]. *)
Variable join : string -> string -> string.

(** [os.getcwd()] and [os.path.dirname(os.path.abspath(__file__))]. *)
Variable getcwd : string.
Variable script_dir : string.

(** Whether the text view's [setMarkdown] raises, and with what. *)
Variable setMarkdown : string -> outcome unit.

Definition possible_paths : list string :=
  [join getcwd "README.md"; join script_dir "README.md"].

(** The loop over the candidates: the first one that exists and can be read
    ends the loop ([break]); one that exists and cannot be read is skipped
    ([continue]).  The result is [content], [None] when never assigned. *)
Fixpoint search (paths : list string) : option string :=
  match paths with
  | [] => None
  | p :: rest =>
      if path_exists (disk p) then
        match read (disk p) with
        | Return content => Some content
        | Raise _ => search rest
        end
      else search rest
  end.

Definition _load_readme : M (option rendered) unit :=
  (let content := search possible_paths in
   let content :=
     match content with
     | None => "README.md not found."
     | Some c => c
     end in
   try_except
     (match setMarkdown content with
      | Return _ => modify (fun _ => Some (Markdown content))
      | Raise e => raise e
      end)
     (fun _ => modify (fun _ => Some (PlainText content))))%py.

End Load.

(** The text a rendering holds. *)
Definition text_of_rendered (r : rendered) : string :=
  match r with Markdown c => c | PlainText c => c end.

End ReadmeDialog.

(** ** The update check *)

Module Updates.

(** Truthiness of a JSON value: [bool(v)]. *)
Definition truthy_value (v : value) : bool :=
  match v with
  | VNone => false
  | VBool b => b
  | VInt n => negb (Z.eqb n 0)
  | VFloat m _ => negb (Z.eqb m 0)
  | VStr s => truthy s
  | VList xs => match xs with [] => false | _ :: _ => true end
  | VDict d => negb (bool_decide (d = ∅))
  end.

(** [v != s] for a [str] [s]: only the same [str] is equal to it. *)
Definition differs_from_str (v : value) (s : string) : bool :=
  match v with
  | VStr t => negb (String.eqb t s)
  | _ => true
  end.

(** What [subprocess.run] returns with [capture_output] and [text]. *)
Record completed : Type := Completed {
  returncode : Z;
  stdout : string;
  stderr : string
}.

(** What the check does to the outside: a line appended to the log view, the
    tool run for its version, the releases endpoint fetched, [uv] looked up
    on the search path. *)
Inductive effect : Type :=
  | Append (text : string)
  | RunTool (cmd : list string)
  | UrlOpen (url : string)
  | Which (name : string).

Definition RELEASES_URL : string :=
  "https://api.github.com/repos/yt-dlp/yt-dlp/releases/latest".

Section Check.

(** [subprocess.run(["yt-dlp", "--version"], ...)]: the completed process,
    or the exception of a failed launch. *)
Variable version_run : outcome completed.

(** Fetching and parsing the latest release: the parsed JSON, or the
    exception of the request, the decoding or the parser. *)
Variable latest_release : outcome value.

(** [shutil.which("uv") is not None]. *)
Variable has_uv : bool.

(** [str(v)] of a value that is not a [str], as an f-string prints it. *)
Variable repr : value -> string.

Definition format (v : value) : string :=
  match v with VStr s => s | _ => repr v end.

Definition append (text : string) : M (list effect) unit :=
  modify (fun tr => tr ++ [Append text]).

Definition subprocess_run (cmd : list string) : M (list effect) completed :=
  (modify (fun tr => tr ++ [RunTool cmd]) ;;
   match version_run with
   | Return c => ret c
   | Raise e => raise e
   end)%py.

Definition urlopen_json (url : string) : M (list effect) value :=
  (modify (fun tr => tr ++ [UrlOpen url]) ;;
   match latest_release with
   | Return data => ret data
   | Raise e => raise e
   end)%py.

Definition which (name : string) : M (list effect) bool :=
  (modify (fun tr => tr ++ [Which name]) ;; ret has_uv)%py.

(** [data.get(key)]: the value or [None] on a dict, an [AttributeError] on
    the JSON values that have no [get]. *)
Definition data_get (data : value) (key : string) : M (list effect) value :=
  match data with
  | VDict d => ret (default VNone (d !! key))
  | _ => raise ("'" +:+ Settings.type_name data
               +:+ "' object has no attribute 'get'")
  end.

(** The first [try] block: the local version, or [None] when the method
    returned from inside it. *)
Definition current_version_block : M (list effect) (option string) :=
  try_except
    (current <- subprocess_run ["yt-dlp"; "--version"] ;;
     let current_version :=
       if truthy (strip (stdout current)) then strip (stdout current)
       else strip (stderr current) in
     if negb (Z.eqb (returncode current) 0) then
       append ("Could not determine current version. Output: "
               +:+ current_version) ;;
       ret None
     else
       append ("Current yt-dlp version: " +:+ current_version) ;;
       ret (Some current_version))%py
    (fun e =>
       append ("Error checking current version: " +:+ e) ;;
       ret None)%py.

Definition check_for_updates : M (list effect) unit :=
  (r <- current_version_block ;;
   match r with
   | None => ret tt
   | Some current_version =>
       try_except
         (data <- urlopen_json RELEASES_URL ;;
          tag <- data_get data "tag_name" ;;
          latest <- (if truthy_value tag then ret tag
                     else data_get data "name") ;;
          if truthy_value latest then
            append ("Latest yt-dlp release: " +:+ format latest) ;;
            if differs_from_str latest current_version then
              has_uv <- which "uv" ;;
              if has_uv then
                append ("Update available. To upgrade: "
                        +:+ "'uv pip install -U yt-dlp' (inside your venv)")
              else
                append ("Update available. To upgrade: "
                        +:+ "'python -m pip install -U yt-dlp'")
            else append "You are up to date."
          else append "Could not determine latest release from GitHub.")
         (fun e => append ("Error checking latest release: " +:+ e))
   end)%py.

(** What one check does, in order. *)
Definition effects : list effect := snd (check_for_updates []).

End Check.

(** The version text the check works with: the tool's trimmed standard
    output, or its trimmed standard error when that is empty. *)
Definition version_text (c : completed) : string :=
  if truthy (strip (stdout c)) then strip (stdout c) else strip (stderr c).

(** The release the check reads from a release document: its [tag_name],
    or its [name] when [tag_name] is missing or falsy. *)
Definition latest_of (d : gmap string value) : value :=
  if truthy_value (default VNone (d !! "tag_name"))
  then default VNone (d !! "tag_name")
  else default VNone (d !! "name").

(** The upgrade hint, by whether [uv] is installed. *)
Definition upgrade_hint (has_uv : bool) : string :=
  if has_uv
  then "Update available. To upgrade: "
       +:+ "'uv pip install -U yt-dlp' (inside your venv)"
  else "Update available. To upgrade: "
       +:+ "'python -m pip install -U yt-dlp'".

(** What the check does once the local version [cv] is known, by what the
    releases endpoint gave. *)
Definition after_version (latest_release : outcome value) (has_uv : bool)
    (repr : value -> string) (cv : string) : list effect :=
  UrlOpen RELEASES_URL
  :: match latest_release with
     | Raise e => [Append ("Error checking latest release: " +:+ e)]
     | Return (VDict d) =>
         if truthy_value (latest_of d) then
           Append ("Latest yt-dlp release: " +:+ format repr (latest_of d))
           :: (if differs_from_str (latest_of d) cv
               then [Which "uv"; Append (upgrade_hint has_uv)]
               else [Append "You are up to date."])
         else [Append "Could not determine latest release from GitHub."]
     | Return data =>
         [Append ("Error checking latest release: "
                  +:+ "'" +:+ Settings.type_name data
                  +:+ "' object has no attribute 'get'")]
     end.

(** The lines a trace appended to the log view. *)
Definition appended (tr : list effect) : list string :=
  omap (fun a => match a with Append s => Some s | _ => None end) tr.

(** The URLs a trace fetched. *)
Definition fetched (tr : list effect) : list string :=
  omap (fun a => match a with UrlOpen u => Some u | _ => None end) tr.

End Updates.

(** ** The shape the window needs of its settings *)

Module SettingsShape.

Definition is_str (v : value) : bool :=
  match v with VStr _ => true | _ => false end.

(** The three directory attributes are strings, as the labels and the
    folder button built from them between [load_config] and the restore of
    the window size need. *)
Definition dirs_are_str (self : Settings.t) : bool :=
  is_str (Settings.video_dir self) && is_str (Settings.audio_dir self)
  && is_str (Settings.last_save_dir self).

End SettingsShape.

(** ** More sample inputs *)

Module MoreSamples.



(** The same window with the per-download override ticked. *)
Definition ready_override : YtDlpGui.t :=
  YtDlpGui.Build "/videos" "/music" "" "" "  http://x/y  " false true
    false YtDlpGui.brave "" false ["ready"] true false None [].

(** A window with a remembered cookie file and the file option unticked. *)
Definition file_unticked : YtDlpGui.t :=
  YtDlpGui.Build "/videos" "/music" "" "/home/u/cookies.txt" "http://x/y"
    false false false YtDlpGui.brave "" false [] true false None [].

(** A disk with a README beside the script only. *)
Definition disk_script_only (p : string) : ReadmeDialog.file :=
  if String.eqb p "/app/README.md" then ReadmeDialog.Text "# yt-dlp GUI"
  else ReadmeDialog.Missing.

(** A release document as the endpoint serves it. *)
Definition release_doc : value :=
  VDict {[ "tag_name" := VStr "2024.08.06"; "name" := VStr "yt-dlp 2024.08.06" ]}.

(** A settings file with one directory and a window size. *)
Definition partial_doc : gmap string value :=
  {[ "video_dir" := VStr "/videos";
     "window_size" := VList [VInt 800; VInt 600] ]}.

(** A toolkit that builds a size from a list of two integers and rejects
    every other value. *)
Definition two_ints (v : value) : outcome (Z * Z) :=
  match v with
  | VList [VInt w; VInt h] => Return (w, h)
  | _ => Raise "QSize: wrong arguments"
  end.

End MoreSamples.

(** ** Facts about [strip] *)

Module StripFacts.

Example strip_both_ends : strip "  a b  " = "a b".
Proof. reflexivity. Qed.

Lemma append_cons (c : ascii) (a b : string) :
  String c a +:+ b = String c (a +:+ b).
Proof. reflexivity. Qed.

Lemma append_empty (b : string) : "" +:+ b = b.
Proof. reflexivity. Qed.

Lemma lstrip_decompose (s : string) :
  exists pre, s = pre +:+ lstrip s /\ all_space pre = true.
Proof.
  induction s as [|c s [pre [Heq Hsp]]]; simpl.
  - by exists "".
  - destruct (isspace c) eqn:Hc.
    + exists (String c pre). split.
      * rewrite append_cons. by f_equal.
      * simpl. by rewrite Hc.
    + by exists "".
Qed.

Lemma lstrip_first (s : string) (c : ascii) :
  first_char (lstrip s) = Some c -> isspace c = false.
Proof.
  induction s as [|a s IH]; simpl; [done |].
  destruct (isspace a) eqn:Ha; [done |].
  simpl. intros [= <-]. done.
Qed.

Lemma rstrip_decompose (s : string) :
  exists post, s = rstrip s +:+ post /\ all_space post = true.
Proof.
  induction s as [|c s [post [Heq Hsp]]]; simpl.
  - by exists "".
  - destruct (rstrip s) as [|r0 r] eqn:Hr.
    + rewrite append_empty in Heq. subst post.
      destruct (isspace c) eqn:Hc.
      * exists (String c s). simpl. by rewrite Hc, Hsp.
      * exists s. done.
    + exists post. rewrite append_cons. split; [by f_equal | done].
Qed.

Lemma rstrip_last (s : string) (c : ascii) :
  last_char (rstrip s) = Some c -> isspace c = false.
Proof.
  revert c. induction s as [|a s IH]; intros c; simpl; [done |].
  destruct (rstrip s) as [|r0 r] eqn:Hr.
  - destruct (isspace a) eqn:Ha; simpl; [done |]. by intros [= <-].
  - intros H. apply IH. exact H.
Qed.

Lemma rstrip_first (s : string) (c : ascii) :
  first_char (rstrip s) = Some c -> first_char s = Some c.
Proof.
  destruct s as [|a s]; simpl; [done |].
  destruct (rstrip s); [destruct (isspace a) |]; simpl; done.
Qed.

Lemma strip_decompose (s : string) :
  exists pre post,
    s = pre +:+ strip s +:+ post
    /\ all_space pre = true /\ all_space post = true.
Proof.
  destruct (lstrip_decompose s) as [pre [Hs Hpre]].
  destruct (rstrip_decompose (lstrip s)) as [post [Hl Hpost]].
  exists pre, post. unfold strip. by rewrite <- Hl.
Qed.

Lemma strip_first (s : string) (c : ascii) :
  first_char (strip s) = Some c -> isspace c = false.
Proof. intros H. apply (lstrip_first s), rstrip_first, H. Qed.

Lemma strip_last (s : string) (c : ascii) :
  last_char (strip s) = Some c -> isspace c = false.
Proof. apply rstrip_last. Qed.

Lemma lstrip_all_space (s : string) : all_space s = true -> lstrip s = "".
Proof.
  induction s as [|c s IH]; simpl; [done |].
  intros [Hc Hs]%andb_prop. rewrite Hc. auto.
Qed.

Lemma strip_all_space (s : string) : all_space s = true -> strip s = "".
Proof. intros H. unfold strip. by rewrite lstrip_all_space. Qed.

Lemma strip_empty_all_space (s : string) : strip s = "" -> all_space s = true.
Proof.
  intros H. destruct (strip_decompose s) as [pre [post [Hs [Hpre Hpost]]]].
  rewrite H, append_empty in Hs. subst s. clear H.
  induction pre as [|c pre IH]; [done |].
  rewrite append_cons. simpl in *.
  apply andb_prop in Hpre as [Hc Hpre]. rewrite Hc. simpl. auto.
Qed.

End StripFacts.

(** ** What a run does, as closed forms of the trace *)

Module WorkerFacts.
Import DownloadWorker Expected.

Lemma for_each_closed (body : string -> M (list action) unit)
    (f : string -> action) (lines : list string) (tr : list action) :
  (forall l tr', body l tr' = (Return tt, tr' ++ [f l])) ->
  for_each lines body tr = (Return tt, tr ++ map f lines).
Proof.
  intros Hbody. revert tr.
  induction lines as [|l lines IH]; intros tr; simpl.
  - unfold ret. by rewrite app_nil_r.
  - unfold bind. rewrite Hbody, IH. by rewrite <- app_assoc.
Qed.

Section Closed.
Variable subprocess : list string -> child.

(** The command-building part of [run] leaves exactly the banners in the
    trace and hands [spec_argv] to the spawn. *)
Lemma run_closed_form (self : t) (tr : list action) :
  run subprocess self tr
  = (Return tt,
     tr ++ map (fun s => Emit (output s)) (banners self)
        ++ Spawn (spec_argv self) :: after_spawn (subprocess (spec_argv self))).
Proof.
  unfold run, spec_argv, banners, start_banner, cookie_banner,
    spec_mode_flags, mode_flags, spec_cookie_flags.
  destruct self as [u vd ad ao cb cf]; simpl.
  destruct ao, (truthy_opt cf), (truthy_opt cb); simpl;
    unfold bind, emit, modify, ret, try_except, Popen, for_line_in, wait,
      raise; simpl;
    rewrite <- ?app_assoc; simpl;
    (match goal with
     | |- context [subprocess ?c] =>
         destruct (subprocess c) as [e | lines [e|]]; simpl
     end);
    unfold bind; simpl;
    rewrite ?(for_each_closed _ (fun l => Emit (output (strip l))))
      by reflexivity;
    simpl; rewrite <- ?app_assoc; simpl;
    reflexivity.
Qed.

Lemma trace_closed_form (self : t) :
  trace subprocess self
  = map (fun s => Emit (output s)) (banners self)
    ++ Spawn (spec_argv self) :: after_spawn (subprocess (spec_argv self)).
Proof. unfold trace. by rewrite run_closed_form. Qed.

End Closed.

Lemma signals_app (t1 t2 : list action) :
  signals (t1 ++ t2) = signals t1 ++ signals t2.
Proof. apply omap_app. Qed.

Lemma spawned_app (t1 t2 : list action) :
  spawned (t1 ++ t2) = spawned t1 ++ spawned t2.
Proof. apply omap_app. Qed.

Lemma signals_outputs (f : string -> string) (ls : list string) :
  signals (map (fun l => Emit (output (f l))) ls)
  = map (fun l => output (f l)) ls.
Proof. induction ls as [|l ls IH]; simpl; [done | by f_equal]. Qed.

Lemma spawned_outputs (f : string -> string) (ls : list string) :
  spawned (map (fun l => Emit (output (f l))) ls) = [].
Proof. induction ls as [|l ls IH]; simpl; done. Qed.

Lemma signals_after (c : child) :
  signals (after_spawn c) = signals_after_spawn c.
Proof.
  destruct c as [e | lines [e|]]; simpl; [done | |];
    rewrite signals_app, signals_outputs; done.
Qed.

Lemma spawned_after (c : child) : spawned (after_spawn c) = [].
Proof.
  destruct c as [e | lines [e|]]; simpl; [done | |];
    rewrite spawned_app, spawned_outputs; done.
Qed.

Section Projections.
Variable subprocess : list string -> child.

(** The one spawn of a run, with the vector the command-building part
    assembled. *)
Lemma spawned_trace (self : t) :
  spawned (trace subprocess self) = [spec_argv self].
Proof.
  rewrite trace_closed_form, spawned_app.
  rewrite (spawned_outputs (fun s => s)). simpl.
  by rewrite spawned_after.
Qed.

Lemma signals_trace (self : t) :
  signals (trace subprocess self)
  = map output (banners self)
    ++ signals_after_spawn (subprocess (spec_argv self)).
Proof.
  rewrite trace_closed_form, signals_app.
  rewrite (signals_outputs (fun s => s)). simpl.
  by rewrite signals_after.
Qed.

End Projections.

Lemma count_finished_app (a b : list signal) :
  count_finished (a ++ b) = count_finished a + count_finished b.
Proof. unfold count_finished. by rewrite List.filter_app, length_app. Qed.

Lemma count_finished_outputs (f : string -> string) (ls : list string) :
  count_finished (map (fun l => output (f l)) ls) = 0.
Proof. induction ls as [|l ls IH]; simpl; done. Qed.

(** The worker's own lines never read like the error report. *)
Lemma banner_not_error (self : t) (e : exn) :
  Forall (fun s => s <> "Error: " +:+ e) (banners self).
Proof.
  unfold banners, start_banner, cookie_banner.
  destruct (audio_only self), (truthy_opt (cookies_file self)),
    (truthy_opt (cookies_browser self));
    repeat constructor; discriminate.
Qed.

End WorkerFacts.


(** ** The download worker against its specification *)

Module WorkerSpec.
Import DownloadWorker Expected Samples WorkerFacts.

(** C1.  Whatever the child process does, a run spawns exactly one process,
    and its argument vector is, in order, the tool name with the mode flags
    and the target directory ([-x --audio-format mp3 -P audioDir] for an
    audio download, [-P videoDir] otherwise), then the cookie flags (the file
    flag, the browser flag, or none), then the URL as last argument.  For the
    scenario request the arguments after the tool name are
    [-P /tmp/v http://x/y]. *)
Theorem run_argument_vector :
  forall (subprocess : list string -> child) (self : t),
    spawned (trace subprocess self)
    = [ (if audio_only self
         then ["yt-dlp"; "-x"; "--audio-format"; "mp3"; "-P"; audio_dir self]
         else ["yt-dlp"; "-P"; video_dir self])
        ++ spec_cookie_flags self ++ [url self] ]
    /\ (spec_cookie_flags self = []
        \/ spec_cookie_flags self = ["--cookies"; text_of (cookies_file self)]
        \/ spec_cookie_flags self
           = ["--cookies-from-browser"; text_of (cookies_browser self)])
    /\ spawned (trace subprocess scenario)
       = [ "yt-dlp" :: ["-P"; "/tmp/v"; "http://x/y"] ].
Proof.
  intros subprocess self. rewrite !spawned_trace. split; [| split].
  - reflexivity.
  - unfold spec_cookie_flags.
    destruct (truthy_opt (cookies_file self)); [auto |].
    destruct (truthy_opt (cookies_browser self)); auto.
  - reflexivity.
Qed.

(** C4, as the code has it.  When the spawn succeeds and the child emits
    [lines] and exits, the signals of the run are: the worker's own start
    line (and its cookie line when cookies are used), then one line event
    per child line in the child's order, each stripped, then the line
    [Download finished.], then [finished].  There is exactly one [finished]
    and it is the last signal. *)
Theorem run_event_order :
  forall (subprocess : list string -> child) (self : t) (lines : list string),
    subprocess (spec_argv self) = Spawned lines None ->
    signals (trace subprocess self)
    = map output (banners self)
      ++ map (fun l => output (strip l)) lines
      ++ [output "Download finished."; finished]
    /\ count_finished (signals (trace subprocess self)) = 1
    /\ last (signals (trace subprocess self)) = Some finished
    /\ fst (run subprocess self []) = Return tt.
Proof.
  intros subprocess self lines Hc.
  rewrite run_closed_form, signals_trace, Hc. simpl.
  split; [reflexivity |]. split; [| split; [| reflexivity]].
  - change (output (start_banner self) :: map output (cookie_banner self)
            ++ ?x) with (map output (banners self) ++ x).
    rewrite !count_finished_app, (count_finished_outputs (fun s => s)),
      count_finished_outputs. reflexivity.
  - rewrite app_comm_cons, app_assoc.
    change [output "Download finished."; finished]
      with ([output "Download finished."] ++ [finished]).
    rewrite app_assoc. apply last_snoc.
Qed.

Lemma run_event_order_witness :
  signals (trace (fun _ => Spawned ["A"; "B"; "C"] None) scenario)
  = [output ("Starting video download: http://x/y" +:+ nl
             +:+ "Download directory: /tmp/v");
     output "A"; output "B"; output "C";
     output "Download finished."; finished].
Proof.
  exact (proj1 (run_event_order (fun _ => Spawned ["A"; "B"; "C"] None)
                  scenario ["A"; "B"; "C"] eq_refl)).
Defined.

(** The claimed sequence [line A, line B, line C, completed] is not what a
    run over a child emitting [A], [B], [C] delivers. *)
Lemma run_event_order_counterexample :
  signals (trace (fun _ => Spawned ["A"; "B"; "C"] None) scenario)
  <> [output "A"; output "B"; output "C"; finished].
Proof. vm_compute. discriminate. Qed.

(** C5.  When the spawn raises [e], the run completes normally; after the
    spawn attempt it emits exactly the line event [Error: e] and then
    [finished]; among all signals of the run, one is that error line and one
    is [finished], the last. *)
Theorem run_spawn_failure :
  forall (subprocess : list string -> child) (self : t) (e : exn),
    subprocess (spec_argv self) = SpawnRaises e ->
    run subprocess self []
    = (Return tt,
       map (fun s => Emit (output s)) (banners self)
       ++ [Spawn (spec_argv self);
           Emit (output ("Error: " +:+ e)); Emit finished])
    /\ signals (trace subprocess self)
       = map output (banners self) ++ [output ("Error: " +:+ e); finished]
    /\ count_signal (output ("Error: " +:+ e))
         (signals (trace subprocess self)) = 1
    /\ count_finished (signals (trace subprocess self)) = 1.
Proof.
  intros subprocess self e Hc.
  rewrite run_closed_form, signals_trace, Hc. simpl.
  split; [reflexivity |]. split; [reflexivity |].
  change (output (start_banner self) :: map output (cookie_banner self)
          ++ ?x) with (map output (banners self) ++ x).
  split.
  - unfold count_signal. rewrite List.filter_app, length_app.
    assert (Hb : List.filter
                   (fun x => bool_decide (x = output ("Error: " +:+ e)))
                   (map output (banners self)) = []).
    { pose proof (banner_not_error self e) as Hne.
      induction Hne as [|s l Hs _ IH]; simpl; [done |].
      rewrite bool_decide_eq_false_2; [exact IH |].
      intros [= Heq]. by apply Hs. }
    rewrite Hb. simpl. rewrite bool_decide_eq_true_2; done.
  - rewrite count_finished_app, (count_finished_outputs (fun s => s)).
    reflexivity.
Qed.

Lemma run_spawn_failure_witness :
  signals (trace (fun _ => SpawnRaises "boom") scenario)
  = [output ("Starting video download: http://x/y" +:+ nl
             +:+ "Download directory: /tmp/v");
     output "Error: boom"; finished].
Proof.
  exact (proj1 (proj2 (run_spawn_failure (fun _ => SpawnRaises "boom")
                         scenario "boom" eq_refl))).
Defined.

(** C9, as the code has it.  Each line read from the child is emitted with
    the whitespace at both ends removed: the line is a whitespace prefix,
    the emitted text, and a whitespace suffix, and the emitted text neither
    starts nor ends with whitespace. *)
Theorem line_event_is_stripped :
  forall (subprocess : list string -> child) (self : t)
         (lines : list string) (err : option exn),
    subprocess (spec_argv self) = Spawned lines err ->
    (exists rest,
        signals (trace subprocess self)
        = map output (banners self)
          ++ map (fun l => output (strip l)) lines ++ rest)
    /\ Forall (fun l =>
         (exists pre post,
             l = pre +:+ strip l +:+ post
             /\ all_space pre = true /\ all_space post = true)
         /\ (forall c, first_char (strip l) = Some c -> isspace c = false)
         /\ (forall c, last_char (strip l) = Some c -> isspace c = false))
       lines.
Proof.
  intros subprocess self lines err Hc. split.
  - rewrite signals_trace, Hc. destruct err as [e|]; simpl; eauto.
  - apply Forall_forall. intros l _. split; [| split].
    + apply StripFacts.strip_decompose.
    + apply StripFacts.strip_first.
    + apply StripFacts.strip_last.
Qed.

Lemma line_event_is_stripped_witness :
  exists rest,
    signals (trace (fun _ => Spawned ["  A "] None) scenario)
    = map output (banners scenario)
      ++ map (fun l => output (strip l)) ["  A "] ++ rest.
Proof.
  exact (proj1 (line_event_is_stripped (fun _ => Spawned ["  A "] None)
                  scenario ["  A "] None eq_refl)).
Defined.

(** The line with only its trailing whitespace removed is not among the
    signals when the child's line starts with whitespace: the event carries
    [A], not the line with its two leading spaces. *)
Lemma line_event_is_stripped_counterexample :
  rstrip "  A " = "  A"
  /\ signals (trace (fun _ => Spawned ["  A "] None) scenario)
     = [output ("Starting video download: http://x/y" +:+ nl
                +:+ "Download directory: /tmp/v");
        output "A"; output "Download finished."; finished]
  /\ ~ In (output (rstrip "  A "))
         (signals (trace (fun _ => Spawned ["  A "] None) scenario)).
Proof.
  split; [reflexivity |]. split; [reflexivity |].
  vm_compute. intros H.
  repeat (destruct H as [H | H]; [discriminate H |]). exact H.
Qed.

End WorkerSpec.

(** ** The window against its specification *)

Module GuiSpec.
Import DownloadWorker YtDlpGui Expected Samples WorkerFacts.

Lemma selection_cases (self : YtDlpGui.t) :
  _get_cookies_selection self
  = if file_selected self then (None, Some (cookies_file_path self))
    else if use_cookies_checkbox self then (Some (spec_browser_arg self), None)
    else (None, None).
Proof. reflexivity. Qed.

(** Recording the target directory does not touch the cookie widgets. *)
Lemma selection_frame (b : bool) (d : string) (self : YtDlpGui.t) :
  _get_cookies_selection
    (set_open_last_save_btn b (YtDlpGui.set_last_save_dir d self))
  = _get_cookies_selection self.
Proof. reflexivity. Qed.

Lemma browser_arg_truthy (self : YtDlpGui.t) :
  truthy (spec_browser_arg self) = true.
Proof.
  unfold spec_browser_arg.
  destruct (truthy (strip (cookies_profile_input self)));
    destruct (cookies_browser_combo self); reflexivity.
Qed.

(** The cookie flags of the worker built from the current selection. *)
Lemma new_worker_cookie_flags (self : YtDlpGui.t) (u vd ad : string)
    (ao : bool) :
  spec_cookie_flags (new_worker self u vd ad ao)
  = if file_selected self then ["--cookies"; cookies_file_path self]
    else if use_cookies_checkbox self
    then ["--cookies-from-browser"; spec_browser_arg self]
    else [].
Proof.
  unfold spec_cookie_flags, new_worker. rewrite selection_cases.
  unfold file_selected.
  destruct (use_cookies_file_checkbox self) eqn:Hf;
    destruct (truthy (cookies_file_path self)) eqn:Hp; simpl;
    rewrite ?Hp; try reflexivity;
    destruct (use_cookies_checkbox self); simpl;
    rewrite ?browser_arg_truthy; reflexivity.
Qed.

Lemma new_worker_argv (subprocess : list string -> child)
    (self : YtDlpGui.t) (u vd ad : string) (ao : bool) :
  spawned (trace subprocess (new_worker self u vd ad ao))
  = [ mode_flags ao vd ad
      ++ (if file_selected self then ["--cookies"; cookies_file_path self]
          else if use_cookies_checkbox self
          then ["--cookies-from-browser"; spec_browser_arg self]
          else [])
      ++ [u] ].
Proof.
  rewrite spawned_trace. unfold spec_argv.
  by rewrite new_worker_cookie_flags.
Qed.

Section Starting.
Variable getExistingDirectory : string -> string -> string.
Variable isdir : string -> bool.

(** With a URL and resolved directories, [start_download] records the
    target directory, starts exactly one thread, and its worker is the one
    built from the trimmed URL, the directories and the cookie selection. *)
Lemma start_download_starts_worker (self : YtDlpGui.t) (vd ad : string) :
  truthy (strip (url_input self)) = true ->
  _resolve_download_dirs getExistingDirectory (audio_only_checkbox self)
    (video_dir self) (audio_dir self) (override_save_location_checkbox self)
  = Some (vd, ad) ->
  let w := new_worker self (strip (url_input self)) vd ad
             (audio_only_checkbox self) in
  fst (start_download getExistingDirectory isdir self) = Return tt
  /\ started (snd (start_download getExistingDirectory isdir self))
     = started self ++ [w]
  /\ worker (snd (start_download getExistingDirectory isdir self)) = Some w
  /\ download_btn (snd (start_download getExistingDirectory isdir self))
     = false
  /\ YtDlpGui.last_save_dir
       (snd (start_download getExistingDirectory isdir self))
     = (if audio_only_checkbox self then ad else vd).
Proof.
  intros Hurl Hdirs w. subst w.
  unfold start_download, bind, get. rewrite Hurl. simpl. rewrite Hdirs.
  unfold new_worker. simpl.
  rewrite !selection_frame.
  destruct (_get_cookies_selection self) as [cb cf]. simpl. done.
Qed.

End Starting.

(** C2.  The worker built from the cookie selection spawns the tool with:
    the file flag and the chosen path, and no browser flag, when a cookie
    file is selected and the browser option is ticked as well; the browser
    flag when only the browser option is selected; no cookie flag when
    neither is selected.  The worker itself prefers the file whenever it is
    given a non-empty file path, whatever browser it is given. *)
Theorem cookie_file_precedence :
  forall (subprocess : list string -> child) (self : YtDlpGui.t)
         (u vd ad : string) (ao : bool),
    (use_cookies_file_checkbox self = true ->
     truthy (cookies_file_path self) = true ->
     use_cookies_checkbox self = true ->
     _get_cookies_selection self = (None, Some (cookies_file_path self))
     /\ spawned (trace subprocess (new_worker self u vd ad ao))
        = [ mode_flags ao vd ad
            ++ ["--cookies"; cookies_file_path self] ++ [u] ])
    /\ (file_selected self = false ->
        use_cookies_checkbox self = true ->
        spawned (trace subprocess (new_worker self u vd ad ao))
        = [ mode_flags ao vd ad
            ++ ["--cookies-from-browser"; spec_browser_arg self] ++ [u] ])
    /\ (file_selected self = false ->
        use_cookies_checkbox self = false ->
        spawned (trace subprocess (new_worker self u vd ad ao))
        = [ mode_flags ao vd ad ++ [u] ])
    /\ (forall (f : string) (cb : option string),
          truthy f = true ->
          spawned (trace subprocess
                     (DownloadWorker.Build u vd ad ao cb (Some f)))
          = [ mode_flags ao vd ad ++ ["--cookies"; f] ++ [u] ]).
Proof.
  intros subprocess self u vd ad ao. split; [| split; [| split]].
  - intros Hf Hp Hb. split.
    + rewrite selection_cases. unfold file_selected. by rewrite Hf, Hp.
    + rewrite new_worker_argv. unfold file_selected. by rewrite Hf, Hp.
  - intros Hf Hb. rewrite new_worker_argv. by rewrite Hf, Hb.
  - intros Hf Hb. rewrite new_worker_argv. by rewrite Hf, Hb.
  - intros f cb Hf. rewrite spawned_trace.
    unfold spec_argv, spec_cookie_flags, spec_mode_flags. simpl.
    by rewrite Hf.
Qed.

Lemma cookie_file_precedence_witness :
  spawned (trace (fun _ => Spawned [] None)
             (new_worker both_selected "http://x/y" "/tmp/v" "/tmp/a" false))
  = [ ["yt-dlp"; "-P"; "/tmp/v"; "--cookies"; "/home/u/cookies.txt";
       "http://x/y"] ]
  /\ spawned (trace (fun _ => Spawned [] None)
                (new_worker (browser_selected "") "http://x/y" "/tmp/v"
                   "/tmp/a" false))
     = [ ["yt-dlp"; "-P"; "/tmp/v"; "--cookies-from-browser"; "firefox";
          "http://x/y"] ]
  /\ spawned (trace (fun _ => Spawned [] None)
                (new_worker nothing_selected "http://x/y" "/tmp/v" "/tmp/a"
                   false))
     = [ ["yt-dlp"; "-P"; "/tmp/v"; "http://x/y"] ].
Proof.
  split; [| split].
  - apply (proj1 (cookie_file_precedence (fun _ => Spawned [] None)
                    both_selected "http://x/y" "/tmp/v" "/tmp/a" false));
      reflexivity.
  - apply (proj1 (proj2 (cookie_file_precedence (fun _ => Spawned [] None)
                           (browser_selected "") "http://x/y" "/tmp/v"
                           "/tmp/a" false)));
      reflexivity.
  - apply (proj1 (proj2 (proj2
             (cookie_file_precedence (fun _ => Spawned [] None)
                nothing_selected "http://x/y" "/tmp/v" "/tmp/a" false))));
      reflexivity.
Defined.

(** C3.  With the browser option in effect and [firefox] chosen, a profile
    field that reads [Default] once trimmed gives the cookie argument
    [firefox:Default], and a profile field that is empty or whitespace only
    gives [firefox]; that value follows the browser flag in the argument
    vector. *)
Theorem browser_profile_argument :
  forall (subprocess : list string -> child) (self : YtDlpGui.t)
         (u vd ad : string) (ao : bool),
    use_cookies_checkbox self = true ->
    file_selected self = false ->
    cookies_browser_combo self = firefox ->
    (strip (cookies_profile_input self) = "Default" ->
     _get_cookies_selection self = (Some "firefox:Default", None)
     /\ spawned (trace subprocess (new_worker self u vd ad ao))
        = [ mode_flags ao vd ad
            ++ ["--cookies-from-browser"; "firefox:Default"] ++ [u] ])
    /\ (all_space (cookies_profile_input self) = true ->
        _get_cookies_selection self = (Some "firefox", None)
        /\ spawned (trace subprocess (new_worker self u vd ad ao))
           = [ mode_flags ao vd ad
               ++ ["--cookies-from-browser"; "firefox"] ++ [u] ]).
Proof.
  intros subprocess self u vd ad ao Hb Hf Hff.
  rewrite new_worker_argv, selection_cases, Hf, Hb.
  unfold spec_browser_arg. rewrite Hff. split.
  - intros ->. done.
  - intros Hsp. rewrite (StripFacts.strip_all_space _ Hsp). done.
Qed.

Lemma browser_profile_argument_witness :
  _get_cookies_selection (browser_selected "Default")
  = (Some "firefox:Default", None)
  /\ _get_cookies_selection (browser_selected "")
     = (Some "firefox", None)
  /\ _get_cookies_selection (browser_selected "   ")
     = (Some "firefox", None).
Proof.
  split; [| split].
  - apply (proj1 (browser_profile_argument (fun _ => Spawned [] None)
                    (browser_selected "Default") "u" "v" "a" false
                    eq_refl eq_refl eq_refl));
      reflexivity.
  - apply (proj2 (browser_profile_argument (fun _ => Spawned [] None)
                    (browser_selected "") "u" "v" "a" false
                    eq_refl eq_refl eq_refl));
      reflexivity.
  - apply (proj2 (browser_profile_argument (fun _ => Spawned [] None)
                    (browser_selected "   ") "u" "v" "a" false
                    eq_refl eq_refl eq_refl));
      reflexivity.
Defined.

(** C10.  With the cookie-file option ticked and no path chosen, the
    selection is the browser selection when that option is ticked and no
    cookies otherwise; no file is handed to the worker and the argument
    vector has no file flag. *)
Theorem empty_cookie_file_falls_back :
  forall (subprocess : list string -> child) (self : YtDlpGui.t)
         (u vd ad : string) (ao : bool),
    use_cookies_file_checkbox self = true ->
    cookies_file_path self = "" ->
    _get_cookies_selection self
    = (if use_cookies_checkbox self
       then (Some (spec_browser_arg self), None)
       else (None, None))
    /\ snd (_get_cookies_selection self) = None
    /\ spawned (trace subprocess (new_worker self u vd ad ao))
       = [ mode_flags ao vd ad
           ++ (if use_cookies_checkbox self
               then ["--cookies-from-browser"; spec_browser_arg self]
               else [])
           ++ [u] ].
Proof.
  intros subprocess self u vd ad ao Hf Hp.
  rewrite new_worker_argv, selection_cases.
  unfold file_selected. rewrite Hf, Hp. simpl.
  destruct (use_cookies_checkbox self); done.
Qed.

Lemma empty_cookie_file_falls_back_witness :
  spawned (trace (fun _ => Spawned [] None)
             (new_worker (file_ticked_no_path true) "http://x/y" "/tmp/v"
                "/tmp/a" false))
  = [ ["yt-dlp"; "-P"; "/tmp/v"; "--cookies-from-browser";
       "chrome:Profile 1"; "http://x/y"] ]
  /\ spawned (trace (fun _ => Spawned [] None)
                (new_worker (file_ticked_no_path false) "http://x/y"
                   "/tmp/v" "/tmp/a" false))
     = [ ["yt-dlp"; "-P"; "/tmp/v"; "http://x/y"] ].
Proof.
  split.
  - exact (proj2 (proj2 (empty_cookie_file_falls_back
                           (fun _ => Spawned [] None)
                           (file_ticked_no_path true) "http://x/y" "/tmp/v"
                           "/tmp/a" false eq_refl eq_refl))).
  - exact (proj2 (proj2 (empty_cookie_file_falls_back
                           (fun _ => Spawned [] None)
                           (file_ticked_no_path false) "http://x/y" "/tmp/v"
                           "/tmp/a" false eq_refl eq_refl))).
Defined.

(** C7.  With a URL field that is empty once trimmed, [start_download] only
    appends [Please enter a URL.] to the log; with a URL, the override
    option ticked and the directory picker cancelled, it only appends
    [Download cancelled.].  In both cases the window is otherwise unchanged:
    no worker is constructed and no thread is started, so nothing is
    spawned. *)
Theorem input_errors_start_nothing :
  forall (getExistingDirectory : string -> string -> string)
         (isdir : string -> bool) (self : YtDlpGui.t),
    (truthy (strip (url_input self)) = false ->
     start_download getExistingDirectory isdir self
     = (Return tt,
        set_status_display (status_display self ++ ["Please enter a URL."])
          self)
     /\ started (snd (start_download getExistingDirectory isdir self))
        = started self
     /\ worker (snd (start_download getExistingDirectory isdir self))
        = worker self)
    /\ (truthy (strip (url_input self)) = true ->
        override_save_location_checkbox self = true ->
        getExistingDirectory
          (if audio_only_checkbox self
           then "Select Download Directory for Audio"
           else "Select Download Directory for Video")
          (if audio_only_checkbox self
           then YtDlpGui.audio_dir self else YtDlpGui.video_dir self)
        = "" ->
        start_download getExistingDirectory isdir self
        = (Return tt,
           set_status_display (status_display self ++ ["Download cancelled."])
             self)
        /\ started (snd (start_download getExistingDirectory isdir self))
           = started self
        /\ worker (snd (start_download getExistingDirectory isdir self))
           = worker self).
Proof.
  intros ged isdir self. split.
  - intros Hurl.
    assert (Hrun : start_download ged isdir self
                   = (Return tt,
                      set_status_display
                        (status_display self ++ ["Please enter a URL."])
                        self)).
    { unfold start_download, bind, get. by rewrite Hurl. }
    rewrite Hrun. done.
  - intros Hurl Hov Hdlg.
    assert (Hrun : start_download ged isdir self
                   = (Return tt,
                      set_status_display
                        (status_display self ++ ["Download cancelled."])
                        self)).
    { unfold start_download, bind, get.
      rewrite Hurl. simpl. unfold _resolve_download_dirs. rewrite Hov. simpl.
      destruct (audio_only_checkbox self); rewrite Hdlg; reflexivity. }
    rewrite Hrun. done.
Qed.

Lemma input_errors_start_nothing_witness :
  start_download (fun _ _ => "/tmp/v") (fun _ => true) blank_url
  = (Return tt,
     set_status_display ["ready"; "Please enter a URL."] blank_url)
  /\ start_download (fun _ _ => "") (fun _ => true) override_ticked
     = (Return tt,
        set_status_display ["ready"; "Download cancelled."] override_ticked).
Proof.
  split.
  - exact (proj1 (proj1 (input_errors_start_nothing (fun _ _ => "/tmp/v")
                           (fun _ => true) blank_url) eq_refl)).
  - exact (proj1 (proj2 (input_errors_start_nothing (fun _ _ => "")
                           (fun _ => true) override_ticked)
                    eq_refl eq_refl eq_refl)).
Defined.

End GuiSpec.

(** ** The settings file against its specification *)

Module SettingsSpec.
Import Settings Expected Samples.

Lemma save_config_written (self : Settings.t) (width height : Z)
    (old : config_file) :
  save_config self width height Written old
  = (Return tt, Document (VDict (saved_config self width height))).
Proof. reflexivity. Qed.

(** A failed write never raises out of [save_config]. *)
Lemma save_config_never_raises (self : Settings.t) (width height : Z)
    (io : write_outcome) (old : config_file) :
  fst (save_config self width height io old) = Return tt.
Proof. destruct io; reflexivity. Qed.

(** Loading a document that is a dict assigns the four attributes from the
    dict, each with its default. *)
Lemma load_config_dict (d : gmap string value) (self : Settings.t) :
  load_config (Document (VDict d)) self
  = (Return tt,
     Build (default (video_dir self) (d !! "video_dir"))
       (default (audio_dir self) (d !! "audio_dir"))
       (default (last_save_dir self) (d !! "last_save_dir"))
       (Some (default VNone (d !! "window_size")))).
Proof. reflexivity. Qed.

(** A file that is missing, cannot be opened, is rejected by the parser, or
    holds a document that is not a dict leaves the attributes alone. *)
Lemma load_config_fallback (file : config_file) (self : Settings.t) :
  (forall d, file <> Document (VDict d)) ->
  load_config file self = (Return tt, self).
Proof.
  intros Hnd. destruct file as [| e | e | v]; try reflexivity.
  destruct v; try reflexivity. by destruct (Hnd d).
Qed.

Lemma load_config_never_raises (file : config_file) (self : Settings.t) :
  fst (load_config file self) = Return tt.
Proof.
  destruct file as [| e | e | v]; try reflexivity.
  destruct v; reflexivity.
Qed.

Section Startup.
Variable home : string.
Variable QSize_of_items : value -> outcome (Z * Z).

(** Without a usable dict in the file the constructor completes with the
    defaults and leaves the window size alone. *)
Lemma init_fallback (file : config_file) (st : Settings.t) :
  (forall d, file <> Document (VDict d)) ->
  __init__ home QSize_of_items file st = (Return None, defaults home).
Proof.
  intros Hnd. unfold __init__, bind, modify, get. cbv beta iota.
  rewrite (load_config_fallback file (defaults home) Hnd). reflexivity.
Qed.

(** With a dict that has no [window_size] key, [load_config] assigns
    [None] to the attribute, the [hasattr] guard lets it through, and the
    unpacking raises. *)
Lemma init_window_size_missing (d : gmap string value) (st : Settings.t) :
  d !! "window_size" = None ->
  fst (__init__ home QSize_of_items (Document (VDict d)) st)
  = Raise ("PySide6.QtCore.QSize() argument after * must be an iterable, "
          +:+ "not NoneType").
Proof.
  intros Hws. unfold __init__, bind, modify, get. cbv beta iota.
  rewrite load_config_dict. simpl. rewrite Hws. reflexivity.
Qed.

(** With the two-integer array [save_config] writes, the constructor hands
    the array to [QSize]. *)
Lemma init_window_size_saved (s st : Settings.t) (width height : Z) :
  fst (__init__ home QSize_of_items
         (Document (VDict (saved_config s width height))) st)
  = match QSize_of_items (VList [VInt width; VInt height]) with
    | Return sz => Return (Some sz)
    | Raise e => Raise e
    end.
Proof.
  unfold __init__, bind, modify, get. cbv beta iota.
  rewrite load_config_dict. unfold saved_config. simplify_map_eq.
  unfold QSize_star. simpl.
  destruct (QSize_of_items _); reflexivity.
Qed.

End Startup.

(** C6.  What [save_config] writes, [load_config] restores: after a write
    that went through, loading into any fresh window gives back the three
    directories and the window size that were saved, whatever the file held
    before.  For settings whose window size is the size of the window being
    saved, the loaded settings are the saved ones. *)
Theorem settings_round_trip :
  forall (s fresh : Settings.t) (width height : Z) (old : config_file),
    window_size s = Some (VList [VInt width; VInt height]) ->
    load_config (snd (save_config s width height Written old)) fresh
    = (Return tt, s)
    /\ video_dir
         (snd (load_config (snd (save_config s width height Written old))
                 fresh)) = video_dir s
    /\ audio_dir
         (snd (load_config (snd (save_config s width height Written old))
                 fresh)) = audio_dir s
    /\ last_save_dir
         (snd (load_config (snd (save_config s width height Written old))
                 fresh)) = last_save_dir s
    /\ window_size
         (snd (load_config (snd (save_config s width height Written old))
                 fresh)) = Some (VList [VInt width; VInt height]).
Proof.
  intros s fresh width height old Hws.
  rewrite save_config_written. simpl snd. rewrite load_config_dict.
  unfold saved_config. simplify_map_eq. simpl.
  destruct s as [v a l w]. simpl in *. subst w. done.
Qed.

Lemma settings_round_trip_witness :
  load_config
    (snd (save_config sample_settings 800 600 Written (Malformed "junk")))
    (defaults "/home/u")
  = (Return tt, sample_settings).
Proof.
  exact (proj1 (settings_round_trip sample_settings (defaults "/home/u")
                  800 600 (Malformed "junk") eq_refl)).
Defined.

(** C8, at the failing input.  With a settings file that holds the empty
    JSON object, or an object with the directories only, the constructor
    raises: the attribute [window_size] exists and is [None], and
    [QSize( *None )] is a [TypeError] that nothing catches. *)
Theorem startup_without_window_size_raises :
  forall (home : string) (QSize_of_items : value -> outcome (Z * Z)),
    __init__ home QSize_of_items (Document (VDict ∅)) (defaults home)
    = (Raise ("PySide6.QtCore.QSize() argument after * must be an iterable, "
          +:+ "not NoneType"),
       Build (VStr home) (VStr home) (VStr "") (Some VNone))
    /\ fst (__init__ home QSize_of_items
              (Document (VDict {[ "video_dir" := VStr "/videos";
                                  "audio_dir" := VStr "/music";
                                  "last_save_dir" := VStr "" ]}))
              (defaults home))
       = Raise ("PySide6.QtCore.QSize() argument after * must be an iterable, "
          +:+ "not NoneType").
Proof.
  intros home QSize_of_items. split.
  - reflexivity.
  - apply init_window_size_missing. by simplify_map_eq.
Qed.

End SettingsSpec.

(** ** More about a run *)

Module RunFacts.
Import DownloadWorker Expected Samples WorkerFacts.

Lemma last_of_two {A} (l : list A) (a b : A) :
  last (l ++ [a; b]) = Some b.
Proof.
  change [a; b] with ([a] ++ [b]). rewrite app_assoc. apply last_snoc.
Qed.

Lemma after_spawn_one_finished (c : child) :
  count_finished (signals_after_spawn c) = 1
  /\ last (signals_after_spawn c) = Some finished.
Proof.
  destruct c as [e | lines [e|]]; simpl; [done | |];
    rewrite count_finished_app, count_finished_outputs; (split; [done |]);
    apply last_of_two.
Qed.

Lemma signals_one_finished (subprocess : list string -> child) (self : t) :
  count_finished (signals (trace subprocess self)) = 1.
Proof.
  rewrite signals_trace, count_finished_app.
  rewrite (count_finished_outputs (fun s => s)).
  apply after_spawn_one_finished.
Qed.

(** X1.  Whatever the child does (the spawn raises, the stream ends, a read
    raises), [run] returns normally; its trace is the worker's own banner
    lines, then the one spawn, then the rest; and the signals hold exactly
    one [finished], which comes last. *)
Theorem run_always_finishes :
  forall (subprocess : list string -> child) (self : t),
    fst (run subprocess self []) = Return tt
    /\ (exists rest,
          trace subprocess self
          = map (fun s => Emit (output s)) (banners self)
            ++ Spawn (spec_argv self) :: rest
          /\ spawned rest = [])
    /\ count_finished (signals (trace subprocess self)) = 1
    /\ last (signals (trace subprocess self)) = Some finished.
Proof.
  intros subprocess self.
  destruct (after_spawn_one_finished (subprocess (spec_argv self)))
    as [Hcount Hlast].
  split; [by rewrite run_closed_form |]. split; [| split].
  - exists (after_spawn (subprocess (spec_argv self))).
    split; [apply trace_closed_form | apply spawned_after].
  - apply signals_one_finished.
  - rewrite signals_trace.
    destruct (signals_after_spawn (subprocess (spec_argv self)))
      as [|sg sgs] eqn:Hs; [discriminate Hlast |].
    rewrite last_app. by rewrite Hlast.
Qed.

Lemma no_wait_in_outputs (f : string -> string) (ls : list string) :
  ~ In Wait (map (fun l => Emit (output (f l))) ls).
Proof.
  intros H. apply in_map_iff in H as [l [Hl _]]. discriminate Hl.
Qed.

(** X2.  When a read of the child's output raises [e] after [lines], the lines
    read so far are delivered in order, then the line [Error: e], then
    [finished]; the run returns normally and never waits for the child. *)
Theorem read_failure_reported :
  forall (subprocess : list string -> child) (self : t)
         (lines : list string) (e : exn),
    subprocess (spec_argv self) = Spawned lines (Some e) ->
    fst (run subprocess self []) = Return tt
    /\ signals (trace subprocess self)
       = map output (banners self)
         ++ map (fun l => output (strip l)) lines
         ++ [output ("Error: " +:+ e); finished]
    /\ ~ In Wait (trace subprocess self).
Proof.
  intros subprocess self lines e Hc.
  split; [by rewrite run_closed_form |]. split.
  - by rewrite signals_trace, Hc.
  - rewrite trace_closed_form, Hc. unfold after_spawn. intros H.
    apply in_app_or in H as [H | H].
    + by apply (no_wait_in_outputs (fun s => s)) in H.
    + destruct H as [H | H]; [discriminate H |].
      apply in_app_or in H as [H | H].
      * by apply no_wait_in_outputs in H.
      * destruct H as [H | [H | []]]; discriminate H.
Qed.

Lemma read_failure_reported_witness :
  signals (trace (fun _ => Spawned ["one "; "two"] (Some "broken pipe"))
             scenario)
  = [output ("Starting video download: http://x/y" +:+ nl
             +:+ "Download directory: /tmp/v");
     output "one"; output "two"; output "Error: broken pipe"; finished].
Proof.
  exact (proj1 (proj2 (read_failure_reported
                         (fun _ => Spawned ["one "; "two"]
                                     (Some "broken pipe"))
                         scenario ["one "; "two"] "broken pipe" eq_refl))).
Defined.

(** X3.  [process.wait()] is reached exactly when the child was spawned and its
    output ended without a read error. *)
Theorem wait_iff_stream_ended :
  forall (subprocess : list string -> child) (self : t),
    In Wait (trace subprocess self)
    <-> exists lines, subprocess (spec_argv self) = Spawned lines None.
Proof.
  intros subprocess self. rewrite trace_closed_form. split.
  - intros H. apply in_app_or in H as [H | H].
    { by apply (no_wait_in_outputs (fun s => s)) in H. }
    destruct H as [H | H]; [discriminate H |].
    destruct (subprocess (spec_argv self)) as [e | lines [e|]]; simpl in H.
    + destruct H as [H | [H | []]]; discriminate H.
    + apply in_app_or in H as [H | H].
      * by apply no_wait_in_outputs in H.
      * destruct H as [H | [H | []]]; discriminate H.
    + by exists lines.
  - intros [lines Hc]. rewrite Hc. unfold after_spawn.
    apply in_or_app. right. right. apply in_or_app. right. by left.
Qed.

(** X4.  The directory of the other mode plays no part in a run: an audio
    download behaves the same whatever the video directory is, and a video
    download the same whatever the audio directory is. *)
Theorem other_directory_ignored :
  forall (subprocess : list string -> child) (u vd vd' ad ad' : string)
         (cb cf : option string),
    trace subprocess (Build u vd ad true cb cf)
    = trace subprocess (Build u vd' ad true cb cf)
    /\ trace subprocess (Build u vd ad false cb cf)
       = trace subprocess (Build u vd ad' false cb cf).
Proof.
  intros subprocess u vd vd' ad ad' cb cf.
  rewrite !trace_closed_form. split; reflexivity.
Qed.

(** X5.  The log says what the command does: the run writes the line
    [Using cookies file: f] exactly when it passes [--cookies f], the line
    [Using cookies from browser: b] exactly when it passes
    [--cookies-from-browser b], and no cookie line when it passes no cookie
    flag. *)
Theorem cookie_log_matches_command :
  forall (subprocess : list string -> child) (self : t),
    exists (flags notes : list string),
      spawned (trace subprocess self)
      = [spec_mode_flags self ++ flags ++ [url self]]
      /\ signals (trace subprocess self)
         = output (start_banner self) :: map output notes
           ++ signals_after_spawn (subprocess (spec_argv self))
      /\ ((flags = [] /\ notes = [])
          \/ (exists f, flags = ["--cookies"; f]
                        /\ notes = ["Using cookies file: " +:+ f])
          \/ (exists b, flags = ["--cookies-from-browser"; b]
                        /\ notes = ["Using cookies from browser: " +:+ b])).
Proof.
  intros subprocess self.
  exists (spec_cookie_flags self), (cookie_banner self).
  split; [apply spawned_trace |]. split; [apply signals_trace |].
  unfold spec_cookie_flags, cookie_banner.
  destruct (truthy_opt (cookies_file self)); [right; left; eauto |].
  destruct (truthy_opt (cookies_browser self)); [right; right; eauto |].
  by left.
Qed.

End RunFacts.

(** ** More about the window *)

Module WindowFacts.
Import DownloadWorker YtDlpGui Window Expected Samples MoreSamples.
Import WorkerFacts GuiSpec.

(** X6.  At most one cookie source is ever selected.  A file is selected only
    with the file option ticked and a path chosen, and it is that path; a
    browser is selected only with the browser option ticked, and its
    argument is never empty. *)
Theorem selection_at_most_one :
  forall (self : YtDlpGui.t),
    (fst (_get_cookies_selection self) = None
     \/ snd (_get_cookies_selection self) = None)
    /\ (forall f, snd (_get_cookies_selection self) = Some f ->
          use_cookies_file_checkbox self = true
          /\ f = cookies_file_path self /\ truthy f = true)
    /\ (forall b, fst (_get_cookies_selection self) = Some b ->
          use_cookies_checkbox self = true
          /\ b = spec_browser_arg self /\ truthy b = true).
Proof.
  intros self. rewrite selection_cases. unfold file_selected.
  destruct (use_cookies_file_checkbox self) eqn:Hf;
    destruct (truthy (cookies_file_path self)) eqn:Hp;
    destruct (use_cookies_checkbox self) eqn:Hb; simpl;
    (split; [auto |]); (split; intros x Hx; try discriminate Hx);
    injection Hx as <-; auto using browser_arg_truthy.
Qed.

Lemma selection_at_most_one_witness :
  _get_cookies_selection file_unticked = (None, None)
  /\ (snd (_get_cookies_selection both_selected)
      = Some "/home/u/cookies.txt" ->
      use_cookies_file_checkbox both_selected = true
      /\ "/home/u/cookies.txt" = cookies_file_path both_selected
      /\ truthy "/home/u/cookies.txt" = true).
Proof.
  split; [reflexivity |].
  exact (proj1 (proj2 (selection_at_most_one both_selected))
           "/home/u/cookies.txt").
Defined.

Section Download.
Variable getExistingDirectory : string -> string -> string.
Variable isdir : string -> bool.

(** The window [start_download] leaves when it starts a worker. *)
Lemma start_download_started (self : YtDlpGui.t) (vd ad : string) :
  truthy (strip (url_input self)) = true ->
  _resolve_download_dirs getExistingDirectory (audio_only_checkbox self)
    (video_dir self) (audio_dir self) (override_save_location_checkbox self)
  = Some (vd, ad) ->
  start_download getExistingDirectory isdir self
  = (Return tt,
     let d := if audio_only_checkbox self then ad else vd in
     let w := new_worker self (strip (url_input self)) vd ad
                (audio_only_checkbox self) in
     thread_start w
       (set_worker (Some w)
          (set_status_display (status_display self ++ [""])
             (set_download_btn false
                (set_open_last_save_btn (truthy (strip d) && isdir d)
                   (YtDlpGui.set_last_save_dir d self)))))).
Proof.
  intros Hurl Hdirs.
  unfold start_download, bind, get. rewrite Hurl. simpl. rewrite Hdirs.
  unfold new_worker. simpl. rewrite !selection_frame.
  destruct (_get_cookies_selection self) as [cb cf]. reflexivity.
Qed.

(** X7.  Whatever the window holds and whatever the picker answers,
    [start_download] returns normally, leaves the default directories and
    the cookie file alone, and starts at most one worker; a worker it
    starts has the trimmed text of the URL field as its URL, which is not
    empty, and the Download button is disabled from then on. *)
Theorem start_download_invariant :
  forall (self : YtDlpGui.t),
    fst (start_download getExistingDirectory isdir self) = Return tt
    /\ video_dir (snd (start_download getExistingDirectory isdir self))
       = video_dir self
    /\ audio_dir (snd (start_download getExistingDirectory isdir self))
       = audio_dir self
    /\ cookies_file_path
         (snd (start_download getExistingDirectory isdir self))
       = cookies_file_path self
    /\ (started (snd (start_download getExistingDirectory isdir self))
        = started self
        \/ exists w,
            started (snd (start_download getExistingDirectory isdir self))
            = started self ++ [w]
            /\ url w = strip (url_input self)
            /\ truthy (url w) = true
            /\ download_btn
                 (snd (start_download getExistingDirectory isdir self))
               = false).
Proof.
  intros self.
  destruct (truthy (strip (url_input self))) eqn:Hurl.
  - destruct (_resolve_download_dirs getExistingDirectory
                (audio_only_checkbox self) (video_dir self) (audio_dir self)
                (override_save_location_checkbox self))
      as [[vd ad]|] eqn:Hdirs.
    + rewrite (start_download_started self vd ad Hurl Hdirs). simpl.
      repeat (split; [reflexivity |]). right.
      eexists. split; [reflexivity |]. simpl. auto.
    + assert (Hrun : start_download getExistingDirectory isdir self
                     = (Return tt,
                        set_status_display
                          (status_display self ++ ["Download cancelled."])
                          self)).
      { unfold start_download, bind, get. rewrite Hurl. simpl.
        by rewrite Hdirs. }
      rewrite Hrun. simpl. auto 10.
  - assert (Hrun : start_download getExistingDirectory isdir self
                   = (Return tt,
                      set_status_display
                        (status_display self ++ ["Please enter a URL."])
                        self)).
    { unfold start_download, bind, get. by rewrite Hurl. }
    rewrite Hrun. simpl. auto 10.
Qed.


(** X9.  With the override ticked and a directory picked, the picked directory
    is the one the tool is given and the one remembered as last save
    location, while the window's default directories stay as they were. *)
Theorem override_applies_to_this_download :
  forall (subprocess : list string -> child) (self : YtDlpGui.t)
         (picked : string),
    truthy (strip (url_input self)) = true ->
    override_save_location_checkbox self = true ->
    getExistingDirectory
      (if audio_only_checkbox self
       then "Select Download Directory for Audio"
       else "Select Download Directory for Video")
      (if audio_only_checkbox self then audio_dir self else video_dir self)
    = picked ->
    truthy picked = true ->
    exists w,
      started (snd (start_download getExistingDirectory isdir self))
      = started self ++ [w]
      /\ spawned (trace subprocess w)
         = [ (if audio_only_checkbox self
              then ["yt-dlp"; "-x"; "--audio-format"; "mp3"; "-P"; picked]
              else ["yt-dlp"; "-P"; picked])
             ++ spec_cookie_flags w ++ [strip (url_input self)] ]
      /\ YtDlpGui.last_save_dir
           (snd (start_download getExistingDirectory isdir self)) = picked
      /\ video_dir (snd (start_download getExistingDirectory isdir self))
         = video_dir self
      /\ audio_dir (snd (start_download getExistingDirectory isdir self))
         = audio_dir self.
Proof.
  intros subprocess self picked Hurl Hov Hpick Htruthy.
  assert (Hdirs : _resolve_download_dirs getExistingDirectory
                    (audio_only_checkbox self) (video_dir self)
                    (audio_dir self) (override_save_location_checkbox self)
                  = Some (if audio_only_checkbox self then video_dir self
                          else picked,
                          if audio_only_checkbox self then picked
                          else audio_dir self)).
  { unfold _resolve_download_dirs. rewrite Hov. simpl.
    destruct (audio_only_checkbox self); rewrite Hpick, Htruthy; done. }
  rewrite (start_download_started self _ _ Hurl Hdirs). simpl.
  eexists. split; [reflexivity |]. split; [| split; [| split]].
  - rewrite spawned_trace. unfold spec_argv, spec_mode_flags, mode_flags.
    simpl. by destruct (audio_only_checkbox self).
  - by destruct (audio_only_checkbox self).
  - reflexivity.
  - reflexivity.
Qed.

End Download.


Lemma override_applies_to_this_download_witness :
  exists w,
    started (snd (start_download (fun _ _ => "/mnt/usb") (fun _ => true)
                    ready_override))
    = started ready_override ++ [w]
    /\ spawned (trace (fun _ => Spawned [] None) w)
       = [ ["yt-dlp"; "-P"; "/mnt/usb"] ++ spec_cookie_flags w
           ++ ["http://x/y"] ]
    /\ YtDlpGui.last_save_dir
         (snd (start_download (fun _ _ => "/mnt/usb") (fun _ => true)
                 ready_override)) = "/mnt/usb"
    /\ video_dir (snd (start_download (fun _ _ => "/mnt/usb")
                         (fun _ => true) ready_override)) = "/videos"
    /\ audio_dir (snd (start_download (fun _ _ => "/mnt/usb")
                         (fun _ => true) ready_override)) = "/music".
Proof.
  exact (override_applies_to_this_download (fun _ _ => "/mnt/usb")
           (fun _ => true) (fun _ => Spawned [] None) ready_override
           "/mnt/usb" eq_refl eq_refl eq_refl eq_refl).
Defined.

End WindowFacts.

(** ** A download from click to completion, and the folder buttons *)

Module SessionFacts.
Import DownloadWorker YtDlpGui Window Expected Samples MoreSamples.
Import WorkerFacts GuiSpec WindowFacts RunFacts.





Section Session.
Variable getExistingDirectory : string -> string -> string.
Variable isdir : string -> bool.
Variable subprocess : list string -> child.


End Session.


Section Folders.
Variable isdir : string -> bool.
Variable openUrl : string -> bool.

(** X11.  [_open_directory_in_file_manager] never opens anything but the trimmed
    path, and only when that is an existing directory; a blank path gives
    the warning [No folder is set.]; and a call that opens nothing shows
    exactly one warning. *)
Theorem open_directory_guarded :
  forall (dir_path : string),
    (forall p, In (OpenUrl p) (shown isdir openUrl dir_path) ->
               p = strip dir_path /\ truthy p = true /\ isdir p = true)
    /\ (all_space dir_path = true ->
        shown isdir openUrl dir_path
        = [Warning OPEN_FOLDER_DIALOG_TITLE "No folder is set."])
    /\ ((forall p, ~ In (OpenUrl p) (shown isdir openUrl dir_path)) ->
        exists text,
          shown isdir openUrl dir_path
          = [Warning OPEN_FOLDER_DIALOG_TITLE text]).
Proof.
  intros dir_path. unfold shown, _open_directory_in_file_manager.
  split; [| split].
  - intros p.
    destruct (truthy (strip dir_path)) eqn:Ht; simpl.
    + destruct (isdir (strip dir_path)) eqn:Hd; simpl.
      * unfold bind, modify. simpl.
        destruct (openUrl (strip dir_path)); simpl;
          intros [H | H]; try (injection H as <-; auto);
          try destruct H as [H | []]; try discriminate H; done.
      * intros [H | []]. discriminate H.
    + intros [H | []]. discriminate H.
  - intros Hsp. by rewrite (StripFacts.strip_all_space _ Hsp).
  - destruct (truthy (strip dir_path)) eqn:Ht; simpl; [| eauto].
    destruct (isdir (strip dir_path)) eqn:Hd; simpl; [| eauto].
    unfold bind, modify. simpl. intros Hno. exfalso.
    apply (Hno (strip dir_path)).
    destruct (openUrl (strip dir_path)); simpl; auto.
Qed.

Variable getExistingDirectory : string -> string -> string.


End Folders.

Lemma open_directory_guarded_witness :
  shown (fun _ => true) (fun _ => true) "   "
  = [Warning OPEN_FOLDER_DIALOG_TITLE "No folder is set."].
Proof.
  exact (proj1 (proj2 (open_directory_guarded (fun _ => true)
                         (fun _ => true) "   ")) eq_refl).
Defined.


Section Choosing.
Variable getExistingDirectory : string -> string -> string.
Variable isdir : string -> bool.
Variable subprocess : list string -> child.


End Choosing.


Section MoreChoosing.
Variable getExistingDirectory : string -> string -> string.
Variable isdir : string -> bool.
Variable subprocess : list string -> child.



End MoreChoosing.

(** X16.  Choosing a cookies file with the file option ticked makes it the
    cookie source of the next download; cancelling the picker leaves the
    selection as it was. *)
Theorem chosen_cookies_file_is_used :
  forall (getOpenFileName : string -> string -> string) (getcwd : string)
         (self : YtDlpGui.t),
    use_cookies_file_checkbox self = true ->
    _get_cookies_selection
      (snd (choose_cookies_file getOpenFileName getcwd self))
    = (if truthy (getOpenFileName "Select cookies.txt file" getcwd)
       then (None, Some (getOpenFileName "Select cookies.txt file" getcwd))
       else _get_cookies_selection self).
Proof.
  intros getOpenFileName getcwd self Hf.
  unfold choose_cookies_file, modify, ret.
  destruct (truthy (getOpenFileName "Select cookies.txt file" getcwd))
    eqn:Hp; simpl; [| reflexivity].
  unfold _get_cookies_selection. simpl. by rewrite Hf, Hp.
Qed.



Lemma chosen_cookies_file_is_used_witness :
  _get_cookies_selection
    (snd (choose_cookies_file (fun _ _ => "/home/u/c.txt") "/home/u"
            (file_ticked_no_path true)))
  = (None, Some "/home/u/c.txt").
Proof.
  exact (chosen_cookies_file_is_used (fun _ _ => "/home/u/c.txt") "/home/u"
           (file_ticked_no_path true) eq_refl).
Defined.

End SessionFacts.

(** ** The README dialog *)

Module ReadmeFacts.
Import ReadmeDialog MoreSamples.

Section Search.
Variable disk : string -> file.

Lemma search_skip (p : string) (rest : list string) :
  (forall c, disk p <> Text c) -> search disk (p :: rest) = search disk rest.
Proof.
  intros Hp. simpl. destruct (disk p) as [| e | c]; try reflexivity.
  by destruct (Hp c).
Qed.

(** X17.  The loop over candidate paths, for any list of candidates: it yields
    the content of the first candidate, in list order, that is a readable
    file, every candidate before it being missing or unreadable; and it
    yields nothing exactly when no candidate is a readable file. *)
Theorem readme_first_readable :
  forall (paths : list string),
    (forall c,
        search disk paths = Some c
        <-> exists pre p post,
              paths = pre ++ p :: post
              /\ disk p = Text c
              /\ Forall (fun q => forall c', disk q <> Text c') pre)
    /\ (search disk paths = None
        <-> Forall (fun q => forall c', disk q <> Text c') paths).
Proof.
  induction paths as [|p rest [IHs IHn]].
  - split.
    + intros c. split; [discriminate |].
      intros [pre [q [post [Heq _]]]]. by destruct pre.
    + split; [constructor | reflexivity].
  - destruct (disk p) as [| e | c0] eqn:Hp.
    + assert (Hno : forall c, disk p <> Text c) by (intros c; congruence).
      rewrite (search_skip p rest Hno). split.
      * intros c. rewrite IHs. split.
        -- intros [pre [q [post [Heq [Hq Hpre]]]]].
           exists (p :: pre), q, post. rewrite Heq. auto.
        -- intros [pre [q [post [Heq [Hq Hpre]]]]].
           destruct pre as [|p' pre]; simpl in Heq; injection Heq as <- ->.
           ++ congruence.
           ++ exists pre, q, post. by inversion Hpre.
      * rewrite IHn. split; [by constructor | by inversion 1].
    + assert (Hno : forall c, disk p <> Text c) by (intros c; congruence).
      rewrite (search_skip p rest Hno). split.
      * intros c. rewrite IHs. split.
        -- intros [pre [q [post [Heq [Hq Hpre]]]]].
           exists (p :: pre), q, post. rewrite Heq. auto.
        -- intros [pre [q [post [Heq [Hq Hpre]]]]].
           destruct pre as [|p' pre]; simpl in Heq; injection Heq as <- ->.
           ++ congruence.
           ++ exists pre, q, post. by inversion Hpre.
      * rewrite IHn. split; [by constructor | by inversion 1].
    + simpl. rewrite Hp. simpl. split.
      * intros c. split.
        -- intros [= <-]. exists [], p, rest. auto.
        -- intros [pre [q [post [Heq [Hq Hpre]]]]].
           destruct pre as [|p' pre]; simpl in Heq; injection Heq as <- ->.
           ++ congruence.
           ++ inversion Hpre as [|? ? Hhd _]. by destruct (Hhd c0).
      * split; [discriminate |].
        inversion 1 as [|? ? Hhd _]. by destruct (Hhd c0).
Qed.

End Search.

Section Dialog.
Variable disk : string -> file.
Variable join : string -> string -> string.
Variable getcwd : string.
Variable script_dir : string.
Variable setMarkdown : string -> outcome unit.

(** The content [_load_readme] settles on. *)
Lemma load_readme_closed (st : option rendered) :
  _load_readme disk join getcwd script_dir setMarkdown st
  = (Return tt,
     let content :=
       default "README.md not found."
         (search disk (possible_paths join getcwd script_dir)) in
     Some (match setMarkdown content with
           | Return _ => Markdown content
           | Raise _ => PlainText content
           end)).
Proof.
  unfold _load_readme, try_except, modify, raise.
  destruct (search disk (possible_paths join getcwd script_dir)); simpl;
    destruct (setMarkdown _); reflexivity.
Qed.

(** X18.  The dialog always ends up showing a text and never raises: the README
    of the working directory when it can be read (also when it is empty),
    otherwise the README beside the script when that can be read, otherwise
    [README.md not found.]; when rendering as markdown raises, the same
    text is shown as plain text. *)
Theorem readme_dialog_shows :
  forall (st : option rendered),
    fst (_load_readme disk join getcwd script_dir setMarkdown st) = Return tt
    /\ (forall c,
          disk (join getcwd "README.md") = Text c ->
          text_of_rendered
            <$> snd (_load_readme disk join getcwd script_dir setMarkdown st)
          = Some c)
    /\ (forall c,
          (forall c', disk (join getcwd "README.md") <> Text c') ->
          disk (join script_dir "README.md") = Text c ->
          text_of_rendered
            <$> snd (_load_readme disk join getcwd script_dir setMarkdown st)
          = Some c)
    /\ ((forall c', disk (join getcwd "README.md") <> Text c') ->
        (forall c', disk (join script_dir "README.md") <> Text c') ->
        text_of_rendered
          <$> snd (_load_readme disk join getcwd script_dir setMarkdown st)
        = Some "README.md not found.")
    /\ (forall r e,
          snd (_load_readme disk join getcwd script_dir setMarkdown st)
          = Some r ->
          setMarkdown (text_of_rendered r) = Raise e ->
          r = PlainText (text_of_rendered r)).
Proof.
  intros st. rewrite load_readme_closed. split; [reflexivity |].
  set (content := default "README.md not found."
                    (search disk (possible_paths join getcwd script_dir))).
  assert (Htext : text_of_rendered
                    (match setMarkdown content with
                     | Return _ => Markdown content
                     | Raise _ => PlainText content
                     end) = content)
    by (by destruct (setMarkdown content)).
  cbv zeta. fold content. simpl. rewrite Htext.
  split; [| split; [| split]].
  - intros c Hc. subst content. unfold possible_paths. simpl.
    by rewrite Hc.
  - intros c Hno Hc. subst content. unfold possible_paths.
    rewrite (search_skip disk _ _ Hno). simpl. by rewrite Hc.
  - intros Hno1 Hno2. subst content. unfold possible_paths.
    by rewrite (search_skip disk _ _ Hno1), (search_skip disk _ _ Hno2).
  - intros r e [= <-]. rewrite Htext. intros He. by rewrite He.
Qed.

End Dialog.

Lemma readme_first_readable_witness :
  search disk_script_only ["/home/u/README.md"; "/app/README.md"]
  = Some "# yt-dlp GUI".
Proof.
  apply (proj1 (readme_first_readable disk_script_only
                  ["/home/u/README.md"; "/app/README.md"])).
  exists ["/home/u/README.md"], "/app/README.md", [].
  split; [reflexivity |]. split; [reflexivity |].
  constructor; [| constructor]. intros c'. vm_compute. discriminate.
Defined.

Lemma readme_dialog_shows_witness :
  text_of_rendered
    <$> snd (_load_readme disk_script_only (fun a b => a +:+ "/" +:+ b)
               "/home/u" "/app" (fun _ => Raise "no markdown support") None)
  = Some "# yt-dlp GUI".
Proof.
  apply (proj1 (proj2 (proj2
           (readme_dialog_shows disk_script_only
              (fun a b => a +:+ "/" +:+ b) "/home/u" "/app"
              (fun _ => Raise "no markdown support") None)))).
  - intros c'. vm_compute. discriminate.
  - reflexivity.
Defined.

End ReadmeFacts.

(** ** The update check *)

Module UpdateFacts.
Import Updates MoreSamples.

Section Check.
Variable version_run : outcome completed.
Variable latest_release : outcome value.
Variable has_uv : bool.
Variable repr : value -> string.

(** The first block, by what running the tool gave. *)
Lemma current_version_block_closed (tr : list effect) :
  current_version_block version_run tr
  = match version_run with
    | Raise e =>
        (Return None,
         tr ++ [RunTool ["yt-dlp"; "--version"];
                Append ("Error checking current version: " +:+ e)])
    | Return c =>
        if Z.eqb (returncode c) 0 then
          (Return (Some (version_text c)),
           tr ++ [RunTool ["yt-dlp"; "--version"];
                  Append ("Current yt-dlp version: " +:+ version_text c)])
        else
          (Return None,
           tr ++ [RunTool ["yt-dlp"; "--version"];
                  Append ("Could not determine current version. Output: "
                          +:+ version_text c)])
    end.
Proof.
  unfold current_version_block, try_except, bind, subprocess_run, modify,
    raise, ret, append, version_text.
  destruct version_run as [c | e]; simpl.
  - destruct (Z.eqb (returncode c) 0); simpl; by rewrite <- app_assoc.
  - by rewrite <- app_assoc.
Qed.

Lemma check_closed :
  check_for_updates version_run latest_release has_uv repr []
  = (Return tt,
     match version_run with
     | Raise e =>
         [RunTool ["yt-dlp"; "--version"];
          Append ("Error checking current version: " +:+ e)]
     | Return c =>
         if Z.eqb (returncode c) 0 then
           [RunTool ["yt-dlp"; "--version"];
            Append ("Current yt-dlp version: " +:+ version_text c)]
           ++ after_version latest_release has_uv repr (version_text c)
         else
           [RunTool ["yt-dlp"; "--version"];
            Append ("Could not determine current version. Output: "
                    +:+ version_text c)]
     end).
Proof.
  unfold check_for_updates. unfold bind at 1.
  rewrite current_version_block_closed.
  destruct version_run as [c | e]; [| reflexivity].
  destruct (Z.eqb (returncode c) 0); [| reflexivity].
  unfold after_version, try_except, bind, urlopen_json, modify, raise, ret,
    data_get, append, which, latest_of, upgrade_hint.
  simpl.
  destruct latest_release as [data | e]; [| reflexivity].
  destruct data; try reflexivity. simpl.
  destruct (truthy_value (default VNone (d !! "tag_name"))) eqn:Ht;
    simpl; rewrite ?Ht; simpl.
  - destruct (differs_from_str _ _); simpl; [| reflexivity].
    by destruct has_uv.
  - destruct (truthy_value (default VNone (d !! "name"))) eqn:Hn;
      simpl; rewrite ?Hn; simpl; [| reflexivity].
    destruct (differs_from_str _ _); simpl; [| reflexivity].
    by destruct has_uv.
Qed.

(** X19.  The check never raises, whatever running the tool, the network and the
    release document give; it starts by running the tool for its version,
    writes at least one line to the log, and contacts the releases
    endpoint at most once. *)
Theorem check_for_updates_never_raises :
  fst (check_for_updates version_run latest_release has_uv repr []) = Return tt
  /\ (exists rest,
        (effects version_run latest_release has_uv repr)
        = RunTool ["yt-dlp"; "--version"] :: rest)
  /\ appended (effects version_run latest_release has_uv repr) <> []
  /\ length (fetched (effects version_run latest_release has_uv repr)) <= 1.
Proof.
  unfold effects. rewrite check_closed. simpl.
  split; [reflexivity |].
  destruct version_run as [c | e]; simpl.
  - destruct (Z.eqb (returncode c) 0); simpl.
    + split; [eauto |]. split; [discriminate |].
      unfold fetched. simpl.
      destruct latest_release as [data | e]; simpl; [| lia].
      destruct data; simpl; try lia.
      destruct (truthy_value (latest_of d)); simpl; [| lia].
      destruct (differs_from_str _ _); simpl; lia.
    + split; [eauto |]. split; [discriminate | simpl; lia].
  - split; [eauto |]. split; [discriminate | simpl; lia].
Qed.

(** X20.  When the local version cannot be determined (running the tool raises,
    or it exits with a non-zero code), the check logs that one line and
    stops: the releases endpoint is not contacted. *)
Theorem version_failure_skips_network :
  (forall e, version_run = Raise e ->
     (effects version_run latest_release has_uv repr)
     = [RunTool ["yt-dlp"; "--version"];
        Append ("Error checking current version: " +:+ e)])
  /\ (forall c, version_run = Return c -> returncode c <> 0%Z ->
        (effects version_run latest_release has_uv repr)
        = [RunTool ["yt-dlp"; "--version"];
           Append ("Could not determine current version. Output: "
                   +:+ version_text c)])
  /\ ((forall c, version_run = Return c -> returncode c <> 0%Z) ->
      fetched (effects version_run latest_release has_uv repr) = []).
Proof.
  unfold effects. rewrite check_closed. simpl. split; [| split].
  - by intros e ->.
  - intros c -> Hrc. apply Z.eqb_neq in Hrc. by rewrite Hrc.
  - intros Hfail. destruct version_run as [c | e]; [| reflexivity].
    specialize (Hfail c eq_refl). apply Z.eqb_neq in Hfail.
    by rewrite Hfail.
Qed.

(** X21.  With the local version known and a release document that is a JSON
    object: the release is the document's [tag_name], or its [name] when
    [tag_name] is missing or falsy.  If there is none, the check says so.
    Otherwise it logs the release and then [You are up to date.] exactly
    when the release is a string equal to the local version text; when
    they differ it looks for [uv] and logs the matching upgrade hint. *)
Theorem release_comparison :
  forall (c : completed) (d : gmap string value),
    version_run = Return c ->
    returncode c = 0%Z ->
    latest_release = Return (VDict d) ->
    (effects version_run latest_release has_uv repr)
    = [RunTool ["yt-dlp"; "--version"];
       Append ("Current yt-dlp version: " +:+ version_text c);
       UrlOpen RELEASES_URL]
      ++ (if truthy_value (latest_of d) then
            Append ("Latest yt-dlp release: " +:+ format repr (latest_of d))
            :: (if differs_from_str (latest_of d) (version_text c)
                then [Which "uv"; Append (upgrade_hint has_uv)]
                else [Append "You are up to date."])
          else [Append "Could not determine latest release from GitHub."])
    /\ (differs_from_str (latest_of d) (version_text c) = false
        <-> latest_of d = VStr (version_text c)).
Proof.
  intros c d Hv Hrc Hl. unfold effects. rewrite check_closed, Hv, Hrc.
  unfold after_version. rewrite Hl. split; [reflexivity |].
  unfold differs_from_str. destruct (latest_of d); try (split; discriminate).
  rewrite negb_false_iff, String.eqb_eq. split; [by intros -> |].
  by intros [= ->].
Qed.

(** X22.  With the local version known, a failed request and a release document
    that is not a JSON object are both reported as one log line after the
    version line; nothing else happens. *)
Theorem release_errors_reported :
  forall (c : completed),
    version_run = Return c ->
    returncode c = 0%Z ->
    (forall e, latest_release = Raise e ->
       (effects version_run latest_release has_uv repr)
       = [RunTool ["yt-dlp"; "--version"];
          Append ("Current yt-dlp version: " +:+ version_text c);
          UrlOpen RELEASES_URL;
          Append ("Error checking latest release: " +:+ e)])
    /\ (forall data, latest_release = Return data ->
          (forall d, data <> VDict d) ->
          (effects version_run latest_release has_uv repr)
          = [RunTool ["yt-dlp"; "--version"];
             Append ("Current yt-dlp version: " +:+ version_text c);
             UrlOpen RELEASES_URL;
             Append ("Error checking latest release: "
                     +:+ "'" +:+ Settings.type_name data
                     +:+ "' object has no attribute 'get'")]).
Proof.
  intros c Hv Hrc. unfold effects. rewrite check_closed, Hv, Hrc.
  unfold after_version. split.
  - by intros e ->.
  - intros data -> Hnd. destruct data; try reflexivity. by destruct (Hnd d).
Qed.

End Check.

Lemma version_failure_skips_network_witness :
  effects (Return (Completed 2 "" "yt-dlp: error: no such option"))
    (Return release_doc) true (fun _ => "")
  = [RunTool ["yt-dlp"; "--version"];
     Append ("Could not determine current version. Output: "
             +:+ "yt-dlp: error: no such option")].
Proof.
  apply (proj1 (proj2
           (version_failure_skips_network
              (Return (Completed 2 "" "yt-dlp: error: no such option"))
              (Return release_doc) true (fun _ => "")))
           (Completed 2 "" "yt-dlp: error: no such option") eq_refl).
  vm_compute. discriminate.
Defined.

Lemma release_comparison_witness :
  effects (Return (Completed 0 ("2024.08.06" +:+ nl) ""))
    (Return release_doc) false (fun _ => "")
  = [RunTool ["yt-dlp"; "--version"];
     Append "Current yt-dlp version: 2024.08.06";
     UrlOpen RELEASES_URL;
     Append "Latest yt-dlp release: 2024.08.06";
     Append "You are up to date."].
Proof.
  exact (proj1 (release_comparison
                  (Return (Completed 0 ("2024.08.06" +:+ nl) ""))
                  (Return release_doc) false (fun _ => "")
                  (Completed 0 ("2024.08.06" +:+ nl) "")
                  {[ "tag_name" := VStr "2024.08.06";
                     "name" := VStr "yt-dlp 2024.08.06" ]}
                  eq_refl eq_refl eq_refl)).
Defined.

Lemma release_errors_reported_witness :
  effects (Return (Completed 0 "2024.08.06" "")) (Raise "timed out") true
    (fun _ => "")
  = [RunTool ["yt-dlp"; "--version"];
     Append "Current yt-dlp version: 2024.08.06";
     UrlOpen RELEASES_URL;
     Append "Error checking latest release: timed out"].
Proof.
  exact (proj1 (release_errors_reported
                  (Return (Completed 0 "2024.08.06" "")) (Raise "timed out")
                  true (fun _ => "") (Completed 0 "2024.08.06" "")
                  eq_refl eq_refl) "timed out" eq_refl).
Defined.

End UpdateFacts.

(** ** More about the settings file and the start of the window *)

Module StartupFacts.
Import Settings SettingsShape Expected Samples MoreSamples SettingsSpec.

Section Startup.
Variable home : string.
Variable QSize_of_items : value -> outcome (Z * Z).

(** The constructor on a dict document, by the value [load_config] leaves
    in [window_size]. *)
Lemma init_dict (d : gmap string value) (st : Settings.t) :
  __init__ home QSize_of_items (Document (VDict d)) st
  = (match (if iterable (default VNone (d !! "window_size"))
            then QSize_of_items (default VNone (d !! "window_size"))
            else Raise ("PySide6.QtCore.QSize() argument after * must be "
                        +:+ "an iterable, not "
                        +:+ type_name (default VNone (d !! "window_size"))))
     with
     | Return sz => Return (Some sz)
     | Raise e => Raise e
     end,
     Build (default (VStr home) (d !! "video_dir"))
       (default (VStr home) (d !! "audio_dir"))
       (default (VStr "") (d !! "last_save_dir"))
       (Some (default VNone (d !! "window_size")))).
Proof.
  unfold __init__, bind, modify, get. cbv beta iota.
  rewrite load_config_dict. simpl. unfold QSize_star.
  destruct (iterable (default VNone (d !! "window_size"))); simpl.
  - destruct (QSize_of_items _); reflexivity.
  - reflexivity.
Qed.

(** X23.  A settings file that is missing, cannot be opened, is not valid JSON,
    or holds a JSON value that is not an object never stops the window
    from starting: the settings steps of the constructor complete with the
    home directory for both downloads, no last save location, and no
    resize. *)
Theorem startup_falls_back_to_defaults :
  forall (file : config_file) (st : Settings.t),
    (file = Absent
     \/ (exists e, file = Unreadable e)
     \/ (exists e, file = Malformed e)
     \/ (exists v, file = Document v /\ forall d, v <> VDict d)) ->
    __init__ home QSize_of_items file st
    = (Return None, Build (VStr home) (VStr home) (VStr "") None).
Proof.
  intros file st Hfile. apply init_fallback.
  intros d ->. destruct Hfile as [H | [[e H] | [[e H] | [v [H Hv]]]]];
    try discriminate H.
  injection H as <-. by destruct (Hv d).
Qed.

(** X24.  With a JSON object whose directories are strings and whose
    [window_size] can be unpacked and is accepted by the toolkit, the
    settings steps of the constructor complete and resize the window; each
    directory is taken from the object when its key is present and stays
    at its default when the key is missing. *)
Theorem startup_partial_file :
  forall (d : gmap string value) (st : Settings.t) (ws : value)
         (sz : Z * Z),
    dirs_are_str (snd (load_config (Document (VDict d)) (defaults home)))
    = true ->
    d !! "window_size" = Some ws ->
    iterable ws = true ->
    QSize_of_items ws = Return sz ->
    __init__ home QSize_of_items (Document (VDict d)) st
    = (Return (Some sz),
       Build (default (VStr home) (d !! "video_dir"))
         (default (VStr home) (d !! "audio_dir"))
         (default (VStr "") (d !! "last_save_dir"))
         (Some ws)).
Proof.
  intros d st ws sz _ Hws Hit Hq. rewrite init_dict, Hws. simpl.
  by rewrite Hit, Hq.
Qed.

(** X25.  With a JSON object whose directories are strings and whose
    [window_size] is [null], a boolean or a number, the constructor raises
    the [TypeError] of the unpacking, which names the type; the toolkit's
    [QSize] is not even called. *)
Theorem startup_window_size_not_iterable :
  forall (d : gmap string value) (st : Settings.t) (ws : value),
    dirs_are_str (snd (load_config (Document (VDict d)) (defaults home)))
    = true ->
    d !! "window_size" = Some ws ->
    iterable ws = false ->
    fst (__init__ home QSize_of_items (Document (VDict d)) st)
    = Raise ("PySide6.QtCore.QSize() argument after * must be "
             +:+ "an iterable, not " +:+ type_name ws).
Proof.
  intros d st ws _ Hws Hit. rewrite init_dict, Hws. simpl. by rewrite Hit.
Qed.

(** X26.  A session that saved its settings starts again: after a write of
    string directories that went through, and with a toolkit that builds a
    size from two integers, the settings steps of the next constructor
    complete, restore the three directories as they were saved, and resize
    the window to the saved width and height. *)
Theorem startup_after_save :
  forall (s st : Settings.t) (width height : Z) (old : config_file),
    dirs_are_str s = true ->
    QSize_of_items (VList [VInt width; VInt height])
    = Return (width, height) ->
    __init__ home QSize_of_items
      (snd (save_config s width height Written old)) st
    = (Return (Some (width, height)),
       Build (video_dir s) (audio_dir s) (last_save_dir s)
         (Some (VList [VInt width; VInt height]))).
Proof.
  intros s st width height old _ Hq.
  rewrite save_config_written. simpl snd. rewrite init_dict.
  unfold saved_config. simplify_map_eq. simpl. by rewrite Hq.
Qed.

End Startup.

(** X27.  Loading is idempotent: loading the same file a second time changes
    nothing more. *)
Theorem load_config_idempotent :
  forall (file : config_file) (self : Settings.t),
    load_config file (snd (load_config file self)) = load_config file self.
Proof.
  intros file self.
  destruct file as [| e | e | v]; try reflexivity.
  destruct v; try reflexivity.
  rewrite !load_config_dict. simpl.
  destruct (d !! "video_dir"), (d !! "audio_dir"), (d !! "last_save_dir");
    reflexivity.
Qed.

(** X28.  Only the four known keys of a settings object are read: two objects
    that agree on [video_dir], [audio_dir], [last_save_dir] and
    [window_size] load to the same attributes, whatever else they hold. *)
Theorem load_config_reads_four_keys :
  forall (d d' : gmap string value) (self : Settings.t),
    d !! "video_dir" = d' !! "video_dir" ->
    d !! "audio_dir" = d' !! "audio_dir" ->
    d !! "last_save_dir" = d' !! "last_save_dir" ->
    d !! "window_size" = d' !! "window_size" ->
    load_config (Document (VDict d)) self
    = load_config (Document (VDict d')) self.
Proof.
  intros d d' self Hv Ha Hl Hw.
  rewrite !load_config_dict. by rewrite Hv, Ha, Hl, Hw.
Qed.

Lemma startup_falls_back_to_defaults_witness :
  __init__ "/home/u" (fun _ => Raise "unused") (Malformed "Expecting value")
    sample_settings
  = (Return None,
     Build (VStr "/home/u") (VStr "/home/u") (VStr "") None).
Proof.
  apply startup_falls_back_to_defaults. right. right. left. by eexists.
Defined.

Lemma startup_partial_file_witness :
  __init__ "/home/u" two_ints (Document (VDict partial_doc)) sample_settings
  = (Return (Some (800%Z, 600%Z)),
     Build (VStr "/videos") (VStr "/home/u") (VStr "")
       (Some (VList [VInt 800; VInt 600]))).
Proof.
  exact (startup_partial_file "/home/u" two_ints partial_doc sample_settings
           (VList [VInt 800; VInt 600]) (800%Z, 600%Z)
           eq_refl eq_refl eq_refl eq_refl).
Defined.

Lemma startup_window_size_not_iterable_witness :
  fst (__init__ "/home/u" two_ints
         (Document (VDict {[ "window_size" := VInt 800 ]})) sample_settings)
  = Raise ("PySide6.QtCore.QSize() argument after * must be "
           +:+ "an iterable, not int").
Proof.
  exact (startup_window_size_not_iterable "/home/u" two_ints
           {[ "window_size" := VInt 800 ]} sample_settings (VInt 800)
           eq_refl eq_refl eq_refl).
Defined.

Lemma startup_after_save_witness :
  __init__ "/home/u" two_ints
    (snd (save_config sample_settings 1024 768 Written Absent))
    (defaults "/home/u")
  = (Return (Some (1024%Z, 768%Z)),
     Build (VStr "/home/u/Videos") (VStr "/home/u/Music") (VStr "/tmp/v")
       (Some (VList [VInt 1024; VInt 768]))).
Proof.
  exact (startup_after_save "/home/u" two_ints sample_settings
           (defaults "/home/u") 1024 768 Absent eq_refl eq_refl).
Defined.

Lemma load_config_reads_four_keys_witness :
  load_config (Document (VDict (<["theme" := VStr "dark"]> partial_doc)))
    (defaults "/home/u")
  = load_config (Document (VDict partial_doc)) (defaults "/home/u").
Proof.
  apply load_config_reads_four_keys; reflexivity.
Defined.

End StartupFacts.

